(** * Release changelog pipeline ([release_notes.py]): a shallow embedding

    The Python module fetches the releases of a repository, keeps the
    production ones, resolves the commits between two tags, summarises each
    commit with a chat-completion call, consolidates the summaries into a
    changelog and writes it to a file.

    Python values are modelled as follows.
    - [str] is [string]; [s.lower()] folds the letters [A-Z], the only
      characters whose lower-case form can take part in a match of the
      all-ASCII marker.
    - A JSON field that may be [null] is an [option]; a field read with
      [d.get(k, default)] is an [option] too, [None] standing for the absent
      key as well.
    - A call that can raise returns a [result].
    - Console output, HTTP requests, completion requests and file writes
      are recorded, in order, in a trace of [Event]s. *)

From Stdlib Require Import String Ascii List Bool Arith ZArith Lia.
From Stdlib Require Import DecimalString.
Import ListNotations.

Local Open Scope string_scope.
Local Open Scope list_scope.

(** ** Python strings *)

Module PyStr.

(** The line feed, written [\n] in the source. *)
Definition nl : string := String (ascii_of_nat 10) EmptyString.

Definition is_upper (c : ascii) : bool :=
  (("A" <=? c) && (c <=? "Z"))%char.

Definition lower_char (c : ascii) : ascii :=
  if is_upper c then ascii_of_nat (nat_of_ascii c + 32) else c.

(** [s.lower()] *)
Fixpoint lower (s : string) : string :=
  match s with
  | EmptyString => EmptyString
  | String c s' => String (lower_char c) (lower s')
  end.

(** [needle in hay] *)
Fixpoint contains (needle hay : string) : bool :=
  String.prefix needle hay ||
  match hay with
  | EmptyString => false
  | String _ hay' => contains needle hay'
  end.

(** [s.replace(old, new)] for one-character [old] and [new], the only
    form the module calls. *)
Fixpoint replace (old new : ascii) (s : string) : string :=
  match s with
  | EmptyString => EmptyString
  | String c s' => String (if (c =? old)%char then new else c) (replace old new s')
  end.

(** [s.count(c)] for a one-character [c]. *)
Fixpoint count (c : ascii) (s : string) : nat :=
  match s with
  | EmptyString => 0
  | String d s' => (if (d =? c)%char then 1 else 0) + count c s'
  end.

(** [sep.join(parts)] *)
Definition join (sep : string) (parts : list string) : string :=
  String.concat sep parts.

(** [str(n)] for a non-negative integer. *)
Definition of_nat (n : nat) : string :=
  NilEmpty.string_of_uint (Nat.to_uint n).

(** Truth value of an optional string: [None] and [""] are falsy. *)
Definition truthy (o : option string) : bool :=
  match o with
  | Some (String _ _) => true
  | _ => false
  end.

End PyStr.

(** ** Filenames *)

Definition slash : ascii := "/"%char.
Definition backslash : ascii := ascii_of_nat 92.
Definition underscore : ascii := "_"%char.

(** [sanitize_filename(filename)] *)
Definition sanitize_filename (filename : string) : string :=
  PyStr.replace backslash underscore (PyStr.replace slash underscore filename).

(** What the two replacements do to one character. *)
Definition sanitize_char (c : ascii) : ascii :=
  if (c =? slash)%char then underscore
  else if (c =? backslash)%char then underscore
  else c.

(** The three characters that [sanitize_filename] sends to the underscore. *)
Definition is_separator (c : ascii) : bool :=
  ((c =? slash) || (c =? backslash) || (c =? underscore))%char.

(** Two tags are alike up to separators when they have the same length and,
    position by position, carry the same character or two separators. *)
Fixpoint alike_up_to_separators (a b : string) : bool :=
  match a, b with
  | EmptyString, EmptyString => true
  | String c a', String d b' =>
      ((c =? d)%char || (is_separator c && is_separator d))
      && alike_up_to_separators a' b'
  | _, _ => false
  end.

(** ** Data model

    The JSON objects of the hosting API, restricted to the keys the module
    reads.  [tag_name], [name] and [body] may be [null]; [filename], [patch]
    and [detailed_diff] are read with [get], [None] being the absent key. *)

Record Release := {
  tag_name : option string;
  name : option string;
  body : option string;
  published_at : string
}.

Record FileChange := {
  filename : option string;
  patch : option string
}.

(** [message] is [commit['commit']['message']] and [author_name] is
    [commit['commit']['author']['name']]. *)
Record Commit := {
  sha : string;
  message : string;
  author_name : string;
  detailed_diff : option (list FileChange)
}.

Record Message := {
  role : string;
  content : string
}.

(** ** Exceptions and results *)

Inductive ExcClass := ValueError | AttributeError | IndexError | OtherException.

(** An instance of (a subclass of) [Exception]; [exc_text] is [str(e)]. *)
Record Exc := {
  exc_class : ExcClass;
  exc_text : string
}.

Inductive result (A : Type) : Type :=
| Ok (a : A)
| Raise (e : Exc).

Arguments Ok {A} a.
Arguments Raise {A} e.

Definition is_value_error (e : Exc) : bool :=
  match exc_class e with
  | ValueError => true
  | _ => false
  end.

(** What [None.lower()] and [None.replace(...)] raise. *)
Definition none_has_no_attribute (attr : string) : Exc :=
  {| exc_class := AttributeError;
     exc_text := "'NoneType' object has no attribute '" ++ attr ++ "'" |}.

Definition list_index_out_of_range : Exc :=
  {| exc_class := IndexError; exc_text := "list index out of range" |}.

(** What [int(s)] raises on a string that is no integer literal. *)
Definition invalid_literal (s : string) : Exc :=
  {| exc_class := ValueError;
     exc_text := "invalid literal for int() with base 10: '" ++ s ++ "'" |}.

(** [o.lower()] on a value that may be [None]. *)
Definition lower_of (o : option string) : result string :=
  match o with
  | Some s => Ok (PyStr.lower s)
  | None => Raise (none_has_no_attribute "lower")
  end.

(** [sanitize_filename(o)] on a value that may be [None]. *)
Definition sanitize_filename_of (o : option string) : result string :=
  match o with
  | Some s => Ok (sanitize_filename s)
  | None => Raise (none_has_no_attribute "replace")
  end.

(** An interpolation [{o}] in an f-string. *)
Definition fmt (o : option string) : string :=
  match o with
  | Some s => s
  | None => "None"
  end.

(** [l[i]] for a non-negative [i]. *)
Definition list_get {A : Type} (l : list A) (i : nat) : result A :=
  match nth_error l i with
  | Some a => Ok a
  | None => Raise list_index_out_of_range
  end.

(** ** The release filter *)

Definition marker : string := "production".

(** The [and] of a nullable field with the substring test on it. *)
Definition field_mentions (o : option string) : bool :=
  match o with
  | Some s => PyStr.truthy o && PyStr.contains marker (PyStr.lower s)
  | None => false
  end.

(** The condition of the comprehension, for one release.  The tag is
    lower-cased first, whatever the other fields hold. *)
Definition keeps (r : Release) : result bool :=
  match lower_of (tag_name r) with
  | Raise e => Raise e
  | Ok tag =>
      Ok (PyStr.contains marker tag
          || field_mentions (name r)
          || field_mentions (body r))
  end.

(** [filter_production_releases(releases)] *)
Fixpoint filter_production_releases (releases : list Release)
  : result (list Release) :=
  match releases with
  | [] => Ok []
  | r :: rest =>
      match keeps r with
      | Raise e => Raise e
      | Ok b =>
          match filter_production_releases rest with
          | Raise e => Raise e
          | Ok kept => Ok (if b then r :: kept else kept)
          end
      end
  end.

(** [f(g(x))] for two calls that may raise. *)
Definition and_then {A B : Type} (r : result A) (f : A -> result B) : result B :=
  match r with
  | Ok a => f a
  | Raise e => Raise e
  end.

(** *** The filter as the specification words it

    A release is retained when its tag, name or body contains the text
    "production", letter case ignored.  Nothing here goes through the code's
    own [lower] or [marker]. *)

(** [capital] is one of the letters [A] to [Z], of codes 65 to 90, and
    [small] is its small letter, 32 further. *)
Definition small_of (capital small : ascii) : bool :=
  let n := nat_of_ascii capital in
  Nat.leb 65 n && Nat.leb n 90 && Nat.eqb (nat_of_ascii small) (n + 32).

(** The same character, or a letter and the same letter in the other case. *)
Definition same_letter (c d : ascii) : bool :=
  (c =? d)%char || small_of c d || small_of d c.

(** [s] starts with [pat], letter case ignored. *)
Fixpoint starts_with_ignoring_case (pat s : string) : bool :=
  match pat, s with
  | EmptyString, _ => true
  | String _ _, EmptyString => false
  | String p pat', String c s' => same_letter p c && starts_with_ignoring_case pat' s'
  end.

(** [pat] occurs somewhere in [s], letter case ignored. *)
Fixpoint occurs_ignoring_case (pat s : string) : bool :=
  starts_with_ignoring_case pat s ||
  match s with
  | EmptyString => false
  | String _ s' => occurs_ignoring_case pat s'
  end.

Definition field_has_marker (o : option string) : bool :=
  match o with
  | Some s => occurs_ignoring_case "production" s
  | None => false
  end.

Definition is_production (r : Release) : bool :=
  field_has_marker (tag_name r) || field_has_marker (name r) || field_has_marker (body r).

(** [sub] is [l] with some elements dropped, the others in their order. *)
Inductive subsequence {A : Type} : list A -> list A -> Prop :=
| subsequence_nil : subsequence [] []
| subsequence_keep x sub l : subsequence sub l -> subsequence (x :: sub) (x :: l)
| subsequence_drop x sub l : subsequence sub l -> subsequence sub (x :: l).

(** ** Prompts *)

Definition commit_system_prompt : string :=
  "Please provide a concise, clear summary of the following commit in changelog format. 
Important guidelines:
- Distinguish between actual bug fixes (issues in existing functionality) and QA-related fixes (issues found during testing of new features)
- QA tickets (usually containing 'QA-' or similar in commit messages) should be categorized as 'Improvements' or 'Features' since they're enhancing new functionality
- Only categorize as 'Bug Fixes' if it's fixing existing, previously working functionality
- Focus on the impact and purpose of the changes from an end-user perspective
- Include relevant technical details only if they're important for understanding the change".

Definition changelog_system_prompt : string :=
  "Please create a comprehensive QA-focused changelog from the following commit summaries.

Organization guidelines:

1. High-Level Summary:
   - Brief overview of the release's major changes
   - Key areas requiring focused testing
   - Potential risk areas

2. Detailed Changes (categorized):
   🚀 New Features
   - List each new feature
   - Specify what functionality needs to be tested
   - Note any dependencies or related features that could be impacted
   
   ✨ Improvements & Enhancements
   - Detail improvements to existing features
   - Highlight changes in user workflows or UI
   - Note any performance improvements that need verification
   
   🐛 Bug Fixes
   - Describe each fix and its impact
   - Specify regression testing needs
   - Note related features that should be re-tested
   
   🔧 Technical Changes
   - List infrastructure or system-level changes
   - Note any performance or security implications
   - Highlight areas needing load/stress testing

3. Testing Focus Areas:
   - Critical user paths affected
   - Cross-browser/device testing requirements
   - API endpoints or services modified
   - Database changes or data migrations
   - Performance-sensitive areas
   - Security considerations

4. Integration Points:
   - List affected third-party integrations
   - Note any API changes or versioning
   - Highlight cross-service dependencies

Make it detailed and structured, focusing on what QA needs to verify and test thoroughly.".

(** ** Effects

    Every effect of the module leaves one event in a trace.  A computation
    yields the events it emitted and either a value or the exception that
    ended it. *)

Inductive Event :=
| Printed (text : string)                                (* console.print *)
| PrintedMarkdown (text : string)                        (* console.print(Markdown(...)) *)
| Prompted (prompt : string)                             (* input *)
| Requested (url : string) (params : list (string * string))  (* requests.get *)
| Completed (messages : list Message)                    (* get_completion *)
| MadeDirs (path : string)                               (* os.makedirs, done *)
| Wrote (path : string) (text : string).                 (* open(path, "w"), done, and its writes *)

Definition IO (A : Type) : Type := (list Event * result A)%type.

Definition ret {A : Type} (a : A) : IO A := ([], Ok a).

Definition raise {A : Type} (e : Exc) : IO A := ([], Raise e).

Definition emit (ev : Event) : IO unit := ([ev], Ok tt).

Definition bind {A B : Type} (m : IO A) (k : A -> IO B) : IO B :=
  match m with
  | (t, Ok a) => let (t', r) := k a in (t ++ t', r)
  | (t, Raise e) => (t, Raise e)
  end.

Definition lift {A : Type} (r : result A) : IO A := ([], r).

Notation "x <- m ;; k" := (bind m (fun x => k))
  (at level 61, m at next level, right associativity).
Notation "m ;; k" := (bind m (fun _ => k))
  (at level 61, right associativity).

Definition is_write (ev : Event) : bool :=
  match ev with
  | Wrote _ _ => true
  | _ => false
  end.

Definition is_request (ev : Event) : bool :=
  match ev with
  | Requested _ _ => true
  | _ => false
  end.

Definition is_completion (ev : Event) : bool :=
  match ev with
  | Completed _ => true
  | _ => false
  end.

(** ** The outside world

    The hosting API, the completion service, the user and the clock.  An
    endpoint answers with a status code and a decoded body; the body of the
    compare endpoint is its [commits] list and the body of the commit
    endpoint its [files] list, absent when the key is. *)

Record Response (A : Type) := {
  status_code : nat;
  json : A
}.

Arguments status_code {A} _.
Arguments json {A} _.

Record World := {
  (** repository, page *)
  releases_endpoint : string -> nat -> Response (list Release);
  (** repository, base tag, head tag *)
  compare_endpoint : string -> string -> string -> Response (list Commit);
  (** repository, sha *)
  commit_endpoint : string -> string -> Response (option (list FileChange));
  (** [get_completion(messages).choices[0].message.content] *)
  completion_content : list Message -> result string;
  (** the n-th line the user types *)
  typed : nat -> string;
  (** [int(s)]; [None] when it raises [ValueError] *)
  int_of : string -> option Z;
  (** [datetime.now().strftime('%Y-%m-%d')] *)
  today : string;
  (** [os.makedirs(path, exist_ok=True)]: done, or the [OSError] raised *)
  makedirs_result : string -> result unit;
  (** [open(path, "w")]: opened, or the [OSError] raised, as for a file
      name that is too long *)
  open_result : string -> result unit
}.

Definition GITHUB_API_BASE : string := "https://api.github.com/repos".

Definition releases_url (repository : string) : string :=
  GITHUB_API_BASE ++ "/" ++ repository ++ "/releases".

Definition compare_url (repository base_tag head_tag : string) : string :=
  GITHUB_API_BASE ++ "/" ++ repository ++ "/compare/" ++ base_tag ++ "..." ++ head_tag.

Definition commit_url (repository commit_sha : string) : string :=
  GITHUB_API_BASE ++ "/" ++ repository ++ "/commits/" ++ commit_sha.

Definition page_params (page : nat) : list (string * string) :=
  [("page", PyStr.of_nat page); ("per_page", "100")].

(** The request for one page of releases. *)
Definition page_request (repository : string) (page : nat) : Event :=
  Requested (releases_url repository) (page_params page).

(** A loop that may not end is run with fuel; [None] is fuel spent. *)
Definition after {A : Type} (t : list Event) (m : option (list Event * A))
  : option (list Event * A) :=
  match m with
  | Some (t', a) => Some (t ++ t', a)
  | None => None
  end.

Section Pipeline.

Variable w : World.

(** *** Hosting API client *)

(** The [while True] of [fetch_releases], entered with the current
    [page] and the [releases] gathered so far. *)
Fixpoint fetch_releases_from (fuel : nat) (repository : string) (page : nat)
    (releases : list Release) : option (IO (list Release)) :=
  match fuel with
  | 0 => None
  | S fuel' =>
      let response := releases_endpoint w repository page in
      let request := page_request repository page in
      if negb (Nat.eqb (status_code response) 200) then
        Some ([request;
               Printed ("Failed to fetch releases: " ++ PyStr.of_nat (status_code response))],
              Ok [])
      else
        match json response with
        | [] => Some ([request], Ok releases)
        | page_releases =>
            after [request]
              (fetch_releases_from fuel' repository (S page) (releases ++ page_releases))
        end
  end.

(** [fetch_releases(repository)] *)
Definition fetch_releases (fuel : nat) (repository : string)
  : option (IO (list Release)) :=
  fetch_releases_from fuel repository 1 [].

Definition with_detailed_diff (commit : Commit) (files : list FileChange) : Commit :=
  {| sha := sha commit;
     message := message commit;
     author_name := author_name commit;
     detailed_diff := Some files |}.

(** One round of the loop over the commits: the single-commit request and
    the assignment to [commit['detailed_diff']] when it succeeds. *)
Definition fetch_detailed_diff (repository : string) (commit : Commit) : IO Commit :=
  let commit_response := commit_endpoint w repository (sha commit) in
  emit (Requested (commit_url repository (sha commit)) []) ;;
  if Nat.eqb (status_code commit_response) 200 then
    ret (with_detailed_diff commit
           (match json commit_response with
            | Some files => files
            | None => []
            end))
  else ret commit.

Definition detail_request (repository : string) (commit : Commit) : Event :=
  Requested (commit_url repository (sha commit)) [].

(** The commit as one round of that loop leaves it. *)
Definition detailed (repository : string) (commit : Commit) : Commit :=
  let commit_response := commit_endpoint w repository (sha commit) in
  if Nat.eqb (status_code commit_response) 200 then
    with_detailed_diff commit
      (match json commit_response with
       | Some files => files
       | None => []
       end)
  else commit.

Fixpoint fetch_detailed_diffs (repository : string) (commits : list Commit)
  : IO (list Commit) :=
  match commits with
  | [] => ret []
  | commit :: rest =>
      commit' <- fetch_detailed_diff repository commit ;;
      rest' <- fetch_detailed_diffs repository rest ;;
      ret (commit' :: rest')
  end.

(** [get_commits_between_tags(repository, base_tag, head_tag)] *)
Definition get_commits_between_tags (repository base_tag head_tag : string)
  : IO (list Commit) :=
  let response := compare_endpoint w repository base_tag head_tag in
  emit (Requested (compare_url repository base_tag head_tag) []) ;;
  if negb (Nat.eqb (status_code response) 200) then
    emit (Printed ("Failed to fetch commits between tags: "
                     ++ PyStr.of_nat (status_code response))) ;;
    ret []
  else fetch_detailed_diffs repository (json response).

(** *** Summarization *)

Definition or_empty (o : option string) : string :=
  match o with
  | Some s => s
  | None => ""
  end.

(** The loop that fills [diff_summary]. *)
Fixpoint diff_summary (files : list FileChange) : list string :=
  match files with
  | [] => []
  | file :: rest =>
      let filename := or_empty (filename file) in
      let changes := or_empty (patch file) in
      match changes with
      | EmptyString => diff_summary rest
      | _ => ("File: " ++ filename ++ PyStr.nl ++ changes)%string :: diff_summary rest
      end
  end.

(** A file counts as patched when its [patch] is a non-empty string. *)
Definition is_patched (file : FileChange) : bool := PyStr.truthy (patch file).

(** The entry [diff_summary] holds for a patched file. *)
Definition diff_entry (file : FileChange) : string :=
  "File: " ++ or_empty (filename file) ++ PyStr.nl ++ or_empty (patch file).

(** [commit.get('detailed_diff', [])] *)
Definition files_of (commit : Commit) : list FileChange :=
  match detailed_diff commit with
  | Some files => files
  | None => []
  end.

Definition no_detailed_changes : string := "No detailed changes available".

Definition diff_text (commit : Commit) : string :=
  match diff_summary (files_of commit) with
  | [] => no_detailed_changes
  | summary => PyStr.join (PyStr.nl ++ PyStr.nl) summary
  end.

Definition commit_messages (commit : Commit) : list Message :=
  [ {| role := "system"; content := commit_system_prompt |};
    {| role := "user";
       content := "Commit message: " ++ message commit ++ PyStr.nl
                  ++ "Author: " ++ author_name commit ++ PyStr.nl ++ PyStr.nl
                  ++ "Code Changes:" ++ PyStr.nl ++ diff_text commit |} ].

(** The completion call both stages make. *)
Definition complete (messages : list Message) : IO string :=
  emit (Completed messages) ;; lift (completion_content w messages).

(** [summarize_commit(commit)] *)
Definition summarize_commit (commit : Commit) : IO string :=
  complete (commit_messages commit).

(** *** Orchestrator *)

(** The loop over [enumerate(commits, 1)], entered at position [i], with
    [total] the length of the whole list. *)
Fixpoint summarize_commits (total i : nat) (commits : list Commit) : IO (list string) :=
  match commits with
  | [] => ret []
  | commit :: rest =>
      emit (Printed ("Processing commit " ++ PyStr.of_nat i ++ "/" ++ PyStr.of_nat total)) ;;
      summary <- summarize_commit commit ;;
      summaries <- summarize_commits total (S i) rest ;;
      ret (summary :: summaries)
  end.

Definition changelog_messages (commit_summaries : list string) : list Message :=
  [ {| role := "system"; content := changelog_system_prompt |};
    {| role := "user"; content := PyStr.join PyStr.nl commit_summaries |} ].

(** [generate_release_changelog(repository, current_release, previous_tag)] *)
Definition generate_release_changelog (repository : string)
    (current_release : Release) (previous_tag : option string) : IO string :=
  commits <- get_commits_between_tags repository (fmt previous_tag)
               (fmt (tag_name current_release)) ;;
  emit (Printed (PyStr.nl ++ "Analyzing " ++ PyStr.of_nat (List.length commits)
                   ++ " commits...")) ;;
  commit_summaries <- summarize_commits (List.length commits) 1 commits ;;
  complete (changelog_messages commit_summaries).

End Pipeline.

(** *** The two selection loops of [main]

    [main] fetches and filters the releases, asks for a mode and lists the
    production releases; what follows are its two [while True] loops, over
    the [repository] and [production_releases] it has by then. *)

Inductive Control := Continue | Break.

Section Main.

Variable w : World.
Variable repository : string.
Variable production_releases : list Release.

Definition in_range (idx : Z) : bool :=
  ((0 <=? idx) && (idx <? Z.of_nat (List.length production_releases)))%Z.

(** [int(selection) - 1] *)
Definition index_of (selection : string) : IO Z :=
  match int_of w selection with
  | Some n => ret (n - 1)%Z
  | None => raise (invalid_literal selection)
  end.

(** [production_releases[idx + 1]["tag_name"] if idx + 1 <
    len(production_releases) else None], for a non-negative [idx]. *)
Definition previous_tag_of (idx : Z) : result (option string) :=
  if (idx + 1 <? Z.of_nat (List.length production_releases))%Z then
    and_then (list_get production_releases (Z.to_nat (idx + 1)))
             (fun r => Ok (tag_name r))
  else Ok None.

Definition oldest_release_notice : string :=
  "This is the oldest release, no previous release to compare with.".

Definition invalid_selection_notice : string :=
  "Invalid selection. Please try again.".

Definition invalid_input_notice : string :=
  "Invalid input. Please enter a number or 'q' to quit.".

Definition wrong_order_notice : string :=
  "Error: First release must be newer than second release.".

Definition changelog_path (safe_filename : string) : string :=
  "changelogs" ++ "/" ++ "changelog_" ++ safe_filename ++ ".md".

Definition changelog_file (release : Release) (changelog : string) : string :=
  "# Changelog for " ++ fmt (tag_name release) ++ PyStr.nl ++ PyStr.nl
  ++ "Release Date: " ++ published_at release ++ PyStr.nl ++ PyStr.nl
  ++ changelog.

(** [os.makedirs(path, exist_ok=True)] *)
Definition makedirs (path : string) : IO unit :=
  match makedirs_result w path with
  | Ok _ => emit (MadeDirs path)
  | Raise e => raise e
  end.

(** [with open(path, "w") as f:] and the writes of [text] under it.  When
    [open] raises there is no file; a file that is open takes its writes. *)
Definition write_file (path text : string) : IO unit :=
  match open_result w path with
  | Ok _ => emit (Wrote path text)
  | Raise e => raise e
  end.

(** Showing the changelog and saving it under the release's tag. *)
Definition save_changelog (release : Release) (changelog : string) : IO unit :=
  emit (Printed (PyStr.nl ++ "Changelog:")) ;;
  emit (PrintedMarkdown changelog) ;;
  makedirs "changelogs" ;;
  safe_filename <- lift (sanitize_filename_of (tag_name release)) ;;
  let filepath := changelog_path safe_filename in
  write_file filepath (changelog_file release changelog) ;;
  emit (Printed (PyStr.nl ++ "Changelog saved to: " ++ filepath)).

(** What is done with a selection in range: the changelog of [release],
    the release at [idx], since the release after it in the list. *)
Definition changelog_since_previous (idx : Z) (release : Release) : IO unit :=
  emit (Printed (PyStr.nl ++ "Processing release: " ++ fmt (tag_name release))) ;;
  previous_tag <- lift (previous_tag_of idx) ;;
  if PyStr.truthy previous_tag then
    changelog <- generate_release_changelog w repository release previous_tag ;;
    save_changelog release changelog
  else emit (Printed oldest_release_notice).

(** The statements of single-release mode under [try], once the
    selection is known not to be the quit signal. *)
Definition process_release (selection : string) : IO unit :=
  idx <- index_of selection ;;
  if in_range idx then
    release <- lift (list_get production_releases (Z.to_nat idx)) ;;
    changelog_since_previous idx release
  else emit (Printed invalid_selection_notice).

(** The two [except] clauses of a loop: the events of the body, then the
    report of the exception that ended it, if one did. *)
Definition reported (what : string) (body : IO unit) : list Event :=
  match body with
  | (t, Ok _) => t
  | (t, Raise e) =>
      t ++ [Printed (if is_value_error e then invalid_input_notice
                     else "Error processing " ++ what ++ ": " ++ exc_text e)]
  end.

Definition release_prompt : string :=
  PyStr.nl ++ "Enter the number of the release to process (or 'q' to quit): ".

(** One round of the single-release loop on the line the user typed. *)
Definition single_release_round (selection : string) : list Event * Control :=
  if (PyStr.lower selection =? "q")%string then ([Prompted release_prompt], Break)
  else (Prompted release_prompt :: reported "release" (process_release selection),
        Continue).

(** Single-release mode, reading the user's lines from [line] on. *)
Fixpoint single_release_mode (fuel : nat) (line : nat) : option (list Event) :=
  match fuel with
  | 0 => None
  | S fuel' =>
      match single_release_round (typed w line) with
      | (t, Break) => Some t
      | (t, Continue) => option_map (app t) (single_release_mode fuel' (S line))
      end
  end.

Definition comparison_path (older newer : string) : string :=
  "changelogs" ++ "/" ++ ("comparison_" ++ older ++ "_to_" ++ newer) ++ ".md".

Definition comparison_file (older newer : Release) (changelog : string) : string :=
  "# Changes from " ++ fmt (tag_name older) ++ " to " ++ fmt (tag_name newer)
  ++ PyStr.nl ++ PyStr.nl
  ++ "Comparison Date: " ++ today w ++ PyStr.nl ++ PyStr.nl
  ++ changelog.

(** Showing the changelog and saving it under the two tags. *)
Definition save_comparison (older newer : Release) (changelog : string) : IO unit :=
  emit (Printed (PyStr.nl ++ "Changelog:")) ;;
  emit (PrintedMarkdown changelog) ;;
  makedirs "changelogs" ;;
  safe_older <- lift (sanitize_filename_of (tag_name older)) ;;
  safe_newer <- lift (sanitize_filename_of (tag_name newer)) ;;
  let filepath := comparison_path safe_older safe_newer in
  write_file filepath (comparison_file older newer changelog) ;;
  emit (Printed (PyStr.nl ++ "Changelog saved to: " ++ filepath)).

(** What is done with a pair in range and in order. *)
Definition changelog_between (newer older : Release) : IO unit :=
  emit (Printed (PyStr.nl ++ "Comparing changes between:")) ;;
  emit (Printed ("Newer: " ++ fmt (tag_name newer))) ;;
  emit (Printed ("Older: " ++ fmt (tag_name older))) ;;
  changelog <- generate_release_changelog w repository newer (tag_name older) ;;
  save_comparison older newer changelog.

(** The statements of compare mode under [try], from the two [int]
    conversions on. *)
Definition process_comparison (newer_release older_release : string) : IO unit :=
  newer_idx <- index_of newer_release ;;
  older_idx <- index_of older_release ;;
  if in_range newer_idx && in_range older_idx then
    if (newer_idx >=? older_idx)%Z then emit (Printed wrong_order_notice)
    else
      newer <- lift (list_get production_releases (Z.to_nat newer_idx)) ;;
      older <- lift (list_get production_releases (Z.to_nat older_idx)) ;;
      changelog_between newer older
  else emit (Printed invalid_selection_notice).

Definition compare_heading : list Event :=
  [ Printed (PyStr.nl ++ "Select two releases to compare:");
    Prompted "Enter the number of the NEWER release (or 'q' to quit): " ].

Definition older_prompt : Event :=
  Prompted "Enter the number of the OLDER release: ".

(** One round of the compare loop that is not ended by the quit signal:
    the second prompt and the body. *)
Definition compare_round (newer_release older_release : string) : list Event :=
  compare_heading ++ older_prompt
    :: reported "comparison" (process_comparison newer_release older_release).

(** Compare mode, reading the user's lines from [line] on. *)
Fixpoint compare_mode (fuel : nat) (line : nat) : option (list Event) :=
  match fuel with
  | 0 => None
  | S fuel' =>
      let newer_release := typed w line in
      if (PyStr.lower newer_release =? "q")%string then Some compare_heading
      else
        option_map (app (compare_round newer_release (typed w (S line))))
                   (compare_mode fuel' (S (S line)))
  end.

End Main.

(** ** Sample data

    The releases of the specification's end-to-end scenario and a small
    world around them. *)

Definition release_of_tag (tag : string) : Release :=
  {| tag_name := Some tag; name := None; body := None;
     published_at := "2024-01-01T00:00:00Z" |}.

Definition sample_releases : list Release :=
  [ release_of_tag "v2.0-production";
    release_of_tag "v1.0-production";
    release_of_tag "v0.9-beta" ].

Definition sample_production : list Release :=
  [ release_of_tag "v2.0-production"; release_of_tag "v1.0-production" ].

(** Releases that mention production in one field or in none, in several
    letter cases. *)
Definition mixed_case_releases : list Release :=
  [ {| tag_name := Some "V2.0-PRODUCTION"; name := None; body := None;
       published_at := "2024-05-01T00:00:00Z" |};
    {| tag_name := Some "v1.9"; name := Some "Hotfix for Production"; body := None;
       published_at := "2024-04-01T00:00:00Z" |};
    {| tag_name := Some "v1.8"; name := Some ""; body := Some "staging only";
       published_at := "2024-03-01T00:00:00Z" |};
    {| tag_name := Some "v1.7"; name := None; body := Some "Rolled out to PrOdUcTiOn.";
       published_at := "2024-02-01T00:00:00Z" |};
    {| tag_name := Some "v1.6-product"; name := Some "ion"; body := None;
       published_at := "2024-01-01T00:00:00Z" |} ].

(** A release without a tag whose title would match. *)
Definition untagged_release : Release :=
  {| tag_name := None; name := Some "Production hotfix"; body := None;
     published_at := "2024-01-01T00:00:00Z" |}.

Definition sample_repository : string := "acme/shop".

(** A repository whose second page of releases fails. *)
Definition failing_repository : string := "acme/broken".

Definition sample_commit : Commit :=
  {| sha := "abc123"; message := "Add greeting"; author_name := "Dana";
     detailed_diff := None |}.

Definition sample_files : list FileChange :=
  [ {| filename := Some "app.py"; patch := Some "+print(1)" |};
    {| filename := Some "logo.png"; patch := None |};
    {| filename := Some "util.py"; patch := Some "-x = 2" |} ].

(** What [open] raises on a file name of more than 255 characters. *)
Definition file_name_too_long (path : string) : Exc :=
  {| exc_class := OtherException;
     exc_text := "[Errno 36] File name too long: '" ++ path ++ "'" |}.

(** A file system that opens every file of the output directory whose name
    has at most 255 characters. *)
Definition sample_open (path : string) : result unit :=
  if Nat.ltb (String.length "changelogs/" + 255) (String.length path)
  then Raise (file_name_too_long path)
  else Ok tt.

(** The first page holds the sample releases; the range since
    "v1.0-production" holds one commit, every other range none; the
    single-commit endpoint answers 404; the user types 1, 1 and q; the
    output directory can be made. *)
Definition sample_world : World :=
  {| releases_endpoint := fun repository page =>
       if Nat.eqb page 1 then {| status_code := 200; json := sample_releases |}
       else if (repository =? failing_repository)%string
            then {| status_code := 503; json := [] |}
            else {| status_code := 200; json := [] |};
     compare_endpoint := fun _ base_tag _ =>
       if (base_tag =? "v1.0-production")%string
       then {| status_code := 200; json := [sample_commit] |}
       else {| status_code := 200; json := [] |};
     commit_endpoint := fun _ _ => {| status_code := 404; json := None |};
     completion_content := fun _ => Ok "Summary.";
     typed := fun n => nth n ["1"; "1"] "q";
     int_of := fun s => option_map Z.of_int (NilEmpty.int_of_string s);
     today := "2024-01-02";
     makedirs_result := fun _ => Ok tt;
     open_result := sample_open |}.

(** ** The diff text as the specification words it

    Nothing here goes through the code's own [join], [nl] or truth test. *)

Definition line_feed : string := "
".

Definition blank_line : string := "

".

(** A file is patched when its [patch] is there and is not empty. *)
Definition has_patch (file : FileChange) : bool :=
  match patch file with
  | Some (String _ _) => true
  | _ => false
  end.

(** The entry of a file: "File: " and its name on one line, its patch
    under it. *)
Definition entry_of (file : FileChange) : string :=
  "File: " ++ match filename file with
              | Some given => given
              | None => ""
              end
  ++ line_feed ++ match patch file with
                  | Some changes => changes
                  | None => ""
                  end.

(** The entries one after the other, nothing between them. *)
Fixpoint concatenated (entries : list string) : string :=
  match entries with
  | [] => ""
  | entry :: rest => entry ++ concatenated rest
  end.

(** The entries one after the other, a blank line between two of them. *)
Fixpoint blank_line_separated (entries : list string) : string :=
  match entries with
  | [] => ""
  | [entry] => entry
  | entry :: rest => entry ++ blank_line ++ blank_line_separated rest
  end.

(** ** Reading a trace *)

(** The files a trace writes, as (path, text), in order. *)
Definition writes (t : list Event) : list (string * string) :=
  flat_map (fun ev => match ev with
                      | Wrote path text => [(path, text)]
                      | _ => []
                      end) t.

(** The URLs a trace requests, in order. *)
Definition requests (t : list Event) : list string :=
  flat_map (fun ev => match ev with
                      | Requested url _ => [url]
                      | _ => []
                      end) t.

(** The message lists a trace sends to the completion service, in order. *)
Definition completions (t : list Event) : list (list Message) :=
  flat_map (fun ev => match ev with
                      | Completed messages => [messages]
                      | _ => []
                      end) t.

(** The text the completion service gives for a commit, [""] when it
    raises. *)
Definition summary_text (w : World) (commit : Commit) : string :=
  match completion_content w (commit_messages commit) with
  | Ok text => text
  | Raise _ => ""
  end.

(** The completion service gives a text for the commit. *)
Definition summarised (w : World) (commit : Commit) : Prop :=
  exists text, completion_content w (commit_messages commit) = Ok text.

(** ** The entry point *)

(** The ASCII characters [str.strip()] removes. *)
Definition is_space (c : ascii) : bool :=
  let n := nat_of_ascii c in
  (Nat.leb 9 n && Nat.leb n 13) || (Nat.leb 28 n && Nat.leb n 32).

Fixpoint lstrip (s : string) : string :=
  match s with
  | EmptyString => EmptyString
  | String c s' => if is_space c then lstrip s' else s
  end.

Fixpoint rstrip (s : string) : string :=
  match s with
  | EmptyString => EmptyString
  | String c s' =>
      match rstrip s' with
      | EmptyString => if is_space c then EmptyString else String c EmptyString
      | kept => String c kept
      end
  end.

(** [s.strip()] *)
Definition strip (s : string) : string := rstrip (lstrip s).

Definition repository_prompt : Event :=
  Prompted "Enter repository (e.g., buildbetter-app/buildbetter-app): ".

Definition mode_menu (found : nat) : list Event :=
  [ Printed (PyStr.nl ++ "Found " ++ PyStr.of_nat found ++ " production releases.");
    Printed (PyStr.nl ++ "Select mode:");
    Printed "1. Analyze single release (changes since previous release)";
    Printed "2. Compare two releases (changes between any two releases)";
    Prompted (PyStr.nl ++ "Enter mode (1 or 2): ") ].

Section Program.

Variable w : World.

(** [datetime.strptime(s, '%Y-%m-%dT%H:%M:%SZ').strftime('%Y-%m-%d')], which
    raises [ValueError] on a text of another shape. *)
Variable date_of : string -> result string.

(** The numbered list of the production releases, entered at number [i]. *)
Fixpoint list_releases (i : nat) (releases : list Release) : IO unit :=
  match releases with
  | [] => ret tt
  | release :: rest =>
      release_date <- lift (date_of (published_at release)) ;;
      emit (Printed (PyStr.of_nat i ++ ". " ++ fmt (tag_name release)
                       ++ " (" ++ release_date ++ ")")) ;;
      list_releases (S i) rest
  end.

(** [main] from the count of the production releases on; the mode is the
    second line the user types and the selections start at the third. *)
Definition select_mode (fuel : nat) (repository : string)
    (production_releases : list Release) : option (IO unit) :=
  let menu := mode_menu (List.length production_releases) in
  let mode := strip (typed w 1) in
  if negb ((mode =? "1")%string || (mode =? "2")%string) then
    Some (menu ++ [Printed "Invalid mode selected."], Ok tt)
  else
    match list_releases 1 production_releases with
    | (listed, Raise e) => Some (menu ++ listed, Raise e)
    | (listed, Ok _) =>
        option_map (fun t => (menu ++ listed ++ t, Ok tt))
          (if (mode =? "1")%string
           then single_release_mode w repository production_releases fuel 2
           else compare_mode w repository production_releases fuel 2)
    end.

(** [main()]; an exception in the result is one no handler of [main]
    catches. *)
Definition main (fuel : nat) : option (IO unit) :=
  let repository := typed w 0 in
  let opening := [repository_prompt; Printed "Fetching releases..."] in
  match fetch_releases w fuel repository with
  | None => None
  | Some (fetched, Raise e) => Some (opening ++ fetched, Raise e)
  | Some (fetched, Ok []) =>
      Some (opening ++ fetched ++ [Printed "No releases found."], Ok tt)
  | Some (fetched, Ok releases) =>
      match filter_production_releases releases with
      | Raise e => Some (opening ++ fetched, Raise e)
      | Ok [] =>
          Some (opening ++ fetched ++ [Printed "No production releases found."], Ok tt)
      | Ok production_releases =>
          after (opening ++ fetched) (select_mode fuel repository production_releases)
      end
  end.

End Program.

(** ** The commit review helpers ([repo.py]) *)

Module Repo.

(** What [d['files']] raises when the key is absent. *)
Definition key_error (key : string) : Exc :=
  {| exc_class := OtherException; exc_text := "'" ++ key ++ "'" |}.

(** What iterating over [None] raises. *)
Definition none_not_iterable : Exc :=
  {| exc_class := OtherException; exc_text := "'NoneType' object is not iterable" |}.

(** [get_commit_diff(repository, commit_sha)]; the value is [None] when
    the function returns [None]. *)
Definition get_commit_diff (w : World) (repository commit_sha : string)
  : IO (option (list FileChange)) :=
  let response := commit_endpoint w repository commit_sha in
  emit (Requested (commit_url repository commit_sha) []) ;;
  if Nat.eqb (status_code response) 200 then
    match json response with
    | Some files => ret (Some files)
    | None => raise (key_error "files")
    end
  else
    emit (Printed ("Failed to fetch commit diff: "
                     ++ PyStr.of_nat (status_code response))) ;;
    ret None.

Definition changes_messages (diff : string) : list Message :=
  [ {| role := "system"; content := "Please summarize the following code changes:" |};
    {| role := "user"; content := diff |} ].

(** [summarize_changes(diff)] *)
Definition summarize_changes (w : World) (diff : string) : IO string :=
  complete w (changes_messages diff).

(** [file['patch'] for file in diff_files if 'patch' in file] *)
Fixpoint patches (diff_files : list FileChange) : list string :=
  match diff_files with
  | [] => []
  | file :: rest =>
      match patch file with
      | Some changes => changes :: patches rest
      | None => patches rest
      end
  end.

(** The join of the patches of what [get_commit_diff] returned. *)
Definition all_diffs (diff_files : option (list FileChange)) : result string :=
  match diff_files with
  | Some files => Ok (PyStr.join PyStr.nl (patches files))
  | None => Raise none_not_iterable
  end.

(** One round of the review loop of [chat], for the commit [commit_sha]. *)
Definition review_commit (w : World) (repository commit_sha : string) : IO unit :=
  diff_files <- get_commit_diff w repository commit_sha ;;
  diffs <- lift (all_diffs diff_files) ;;
  summary <- summarize_changes w diffs ;;
  emit (PrintedMarkdown summary).

End Repo.

(** ** More sample data *)

(** The newest release of the scenario. *)
Definition v2_release : Release := release_of_tag "v2.0-production".

(** The sample world with a completion service that is down. *)
Definition offline_world : World :=
  {| releases_endpoint := releases_endpoint sample_world;
     compare_endpoint := compare_endpoint sample_world;
     commit_endpoint := fun _ _ =>
       {| status_code := 200; json := Some sample_files |};
     completion_content := fun _ =>
       Raise {| exc_class := OtherException; exc_text := "Connection error." |};
     typed := typed sample_world;
     int_of := int_of sample_world;
     today := today sample_world;
     makedirs_result := makedirs_result sample_world;
     open_result := open_result sample_world |}.

(** A world whose releases never end: every page holds one release. *)
Definition endless_world : World :=
  {| releases_endpoint := fun _ _ =>
       {| status_code := 200; json := [release_of_tag "v1.0-production"] |};
     compare_endpoint := compare_endpoint sample_world;
     commit_endpoint := commit_endpoint sample_world;
     completion_content := completion_content sample_world;
     typed := typed sample_world;
     int_of := int_of sample_world;
     today := today sample_world;
     makedirs_result := makedirs_result sample_world;
     open_result := open_result sample_world |}.

(** The sample world with other pages of releases and other typed lines. *)
Definition session (pages : string -> nat -> Response (list Release))
    (lines : list string) : World :=
  {| releases_endpoint := pages;
     compare_endpoint := compare_endpoint sample_world;
     commit_endpoint := commit_endpoint sample_world;
     completion_content := completion_content sample_world;
     typed := fun n => nth n lines "q";
     int_of := int_of sample_world;
     today := today sample_world;
     makedirs_result := makedirs_result sample_world;
     open_result := open_result sample_world |}.

(** The user names the repository whose second page fails. *)
Definition broken_session : World :=
  session (releases_endpoint sample_world) [failing_repository; "1"].

Definition one_page (releases : list Release) (_ : string) (page : nat)
  : Response (list Release) :=
  {| status_code := 200; json := if Nat.eqb page 1 then releases else [] |}.

(** A repository one of whose releases has no tag. *)
Definition untagged_session : World :=
  session (one_page [release_of_tag "v2.0-production"; untagged_release])
    [sample_repository; "1"].

(** A repository without a production release. *)
Definition beta_session : World :=
  session (one_page [release_of_tag "v0.9-beta"; release_of_tag "v0.8-beta"])
    [sample_repository; "1"].

(** The sample world with a compare endpoint that is down. *)
Definition no_compare_world : World :=
  {| releases_endpoint := releases_endpoint sample_world;
     compare_endpoint := fun _ _ _ => {| status_code := 500; json := [] |};
     commit_endpoint := commit_endpoint sample_world;
     completion_content := completion_content sample_world;
     typed := typed sample_world;
     int_of := int_of sample_world;
     today := today sample_world;
     makedirs_result := makedirs_result sample_world;
     open_result := open_result sample_world |}.

Fixpoint repeated (n : nat) (s : string) : string :=
  match n with
  | 0 => EmptyString
  | S n' => s ++ repeated n' s
  end.

(** A valid tag of 258 characters: its changelog file name has 271. *)
Definition long_tag : string := repeated 31 "release/" ++ "production".

Definition long_release : Release := release_of_tag long_tag.

(** A production release published at no date. *)
Definition undated_release : Release :=
  {| tag_name := Some "v3.0-production"; name := None; body := None;
     published_at := "yesterday" |}.

(** The first ten characters of a timestamp, when it has the API's shape. *)
Definition sample_date_of (s : string) : result string :=
  if Nat.eqb (String.length s) 20 then Ok (String.substring 0 10 s)
  else Raise {| exc_class := ValueError;
                exc_text := "time data '" ++ s
                            ++ "' does not match format '%Y-%m-%dT%H:%M:%SZ'" |}.

(** * Properties *)

(** ** Strings *)

Lemma prefix_cons (p c : ascii) (pat s : string) :
  String.prefix (String p pat) (String c s) = ((p =? c)%char && String.prefix pat s).
Proof.
  simpl. destruct (ascii_dec p c) as [->|n].
  - now rewrite Ascii.eqb_refl.
  - apply Ascii.eqb_neq in n. now rewrite n.
Qed.

(** Each letter of the marker equals the lower-cased form of exactly the
    characters that are that letter in either case. *)
Lemma marker_letters :
  Forall (fun p => forall c, (p =? PyStr.lower_char c)%char = same_letter p c)
         (list_ascii_of_string marker).
Proof.
  repeat constructor; intros c; destruct c as [[] [] [] [] [] [] [] []]; reflexivity.
Qed.

(** Searching the lower-cased text for a pattern of such letters is
    searching the text itself with letter case ignored. *)
Lemma prefix_lower (pat s : string) :
  Forall (fun p => forall c, (p =? PyStr.lower_char c)%char = same_letter p c)
         (list_ascii_of_string pat) ->
  String.prefix pat (PyStr.lower s) = starts_with_ignoring_case pat s.
Proof.
  revert s. induction pat as [|p pat IH]; intros s Hpat.
  - destruct s; reflexivity.
  - cbn [list_ascii_of_string] in Hpat. inversion Hpat as [|? ? Hp Hpat']; subst.
    destruct s as [|c s].
    + reflexivity.
    + change (PyStr.lower (String c s)) with (String (PyStr.lower_char c) (PyStr.lower s)).
      rewrite prefix_cons. cbn [starts_with_ignoring_case].
      now rewrite Hp, (IH s Hpat').
Qed.

Lemma contains_lower (pat s : string) :
  Forall (fun p => forall c, (p =? PyStr.lower_char c)%char = same_letter p c)
         (list_ascii_of_string pat) ->
  PyStr.contains pat (PyStr.lower s) = occurs_ignoring_case pat s.
Proof.
  intros Hpat. induction s as [|c s IH].
  - cbn [PyStr.lower PyStr.contains occurs_ignoring_case].
    now rewrite <- (prefix_lower pat EmptyString Hpat).
  - change (PyStr.lower (String c s)) with (String (PyStr.lower_char c) (PyStr.lower s)).
    cbn [PyStr.contains occurs_ignoring_case].
    rewrite IH.
    change (String (PyStr.lower_char c) (PyStr.lower s)) with (PyStr.lower (String c s)).
    now rewrite (prefix_lower pat (String c s) Hpat).
Qed.

Lemma contains_marker (s : string) :
  PyStr.contains marker (PyStr.lower s) = occurs_ignoring_case "production" s.
Proof. exact (contains_lower marker s marker_letters). Qed.

(** ** The release filter *)

Lemma field_mentions_spec (o : option string) :
  field_mentions o = field_has_marker o.
Proof.
  destruct o as [s|]; [|reflexivity].
  unfold field_mentions, field_has_marker.
  rewrite contains_marker.
  destruct s; reflexivity.
Qed.

Lemma keeps_tagged (r : Release) (tag : string) :
  tag_name r = Some tag -> keeps r = Ok (is_production r).
Proof.
  intros Htag. unfold keeps, is_production. rewrite Htag. cbn [lower_of field_has_marker].
  now rewrite contains_marker, !field_mentions_spec.
Qed.

Lemma keeps_untagged (r : Release) :
  tag_name r = None -> keeps r = Raise (none_has_no_attribute "lower").
Proof.
  intros Htag. unfold keeps. now rewrite Htag.
Qed.

Lemma filter_tagged (releases : list Release) :
  Forall (fun r => tag_name r <> None) releases ->
  filter_production_releases releases = Ok (List.filter is_production releases).
Proof.
  induction 1 as [|r rest Hr _ IH]; [reflexivity|].
  destruct (tag_name r) as [tag|] eqn:Htag; [|congruence].
  cbn [filter_production_releases List.filter].
  now rewrite (keeps_tagged r tag Htag), IH.
Qed.

Lemma filter_untagged (releases : list Release) :
  Exists (fun r => tag_name r = None) releases ->
  filter_production_releases releases = Raise (none_has_no_attribute "lower").
Proof.
  induction releases as [|r rest IH]; intros Hex.
  - inversion Hex.
  - cbn [filter_production_releases].
    destruct (tag_name r) as [tag|] eqn:Htag.
    + rewrite (keeps_tagged r tag Htag).
      inversion Hex as [? ? Hnone|? ? Hrest]; subst; [congruence|].
      now rewrite (IH Hrest).
    + now rewrite (keeps_untagged r Htag).
Qed.

Lemma filter_subsequence {A : Type} (f : A -> bool) (l : list A) :
  subsequence (List.filter f l) l.
Proof.
  induction l as [|x l IH]; cbn [List.filter].
  - constructor.
  - destruct (f x); now constructor.
Qed.

(** Every release the filter returned passes the filter's test. *)
Lemma filter_kept (releases kept : list Release) :
  filter_production_releases releases = Ok kept ->
  Forall (fun r => keeps r = Ok true) kept.
Proof.
  revert kept. induction releases as [|r rest IH]; intros kept H.
  - injection H as <-. constructor.
  - cbn [filter_production_releases] in H.
    destruct (keeps r) as [b|e] eqn:Hk; [|discriminate].
    destruct (filter_production_releases rest) as [kept'|e]; [|discriminate].
    injection H as <-.
    destruct b; [constructor|]; auto.
Qed.

Lemma filter_all_kept (releases : list Release) :
  Forall (fun r => keeps r = Ok true) releases ->
  filter_production_releases releases = Ok releases.
Proof.
  induction 1 as [|r rest Hr _ IH]; [reflexivity|].
  cbn [filter_production_releases]. now rewrite Hr, IH.
Qed.

(** C7, as the code has it: on every list of releases that all carry a
    tag, [filter_production_releases] returns exactly the releases whose tag,
    name or body contains "production", letter case ignored: the returned
    list is the input with the other releases dropped, so it is a subsequence
    of the input, in the input's order.  The function is pure: it has no
    trace and no store, and its input is a value it cannot change.  (On a
    list that holds a release without a tag it returns nothing: see C10.) *)
Theorem filter_production_releases_exact (releases : list Release) :
  Forall (fun r => tag_name r <> None) releases ->
  filter_production_releases releases = Ok (List.filter is_production releases)
  /\ subsequence (List.filter is_production releases) releases
  /\ (forall r, In r (List.filter is_production releases)
                <-> In r releases /\ is_production r = true).
Proof.
  intros Htagged. split; [|split].
  - now apply filter_tagged.
  - apply filter_subsequence.
  - intros r. apply filter_In.
Qed.

(** C7, as the specification has it, fails: the title of the release without
    a tag contains "Production", so the release is one to retain, and on the
    list that holds it the function returns no list. *)
Lemma filter_production_releases_raises_on_match :
  is_production untagged_release = true
  /\ ~ (exists kept,
          filter_production_releases [untagged_release] = Ok kept
          /\ forall r, In r kept <-> In r [untagged_release] /\ is_production r = true).
Proof.
  split; [reflexivity|].
  intros [kept [Hreturned _]]. discriminate Hreturned.
Qed.

(** C8: [filter_production_releases] is idempotent: filtering what it
    returned returns the same list, and when it raised, filtering its
    outcome is that same exception. *)
Theorem filter_production_releases_idempotent (releases : list Release) :
  and_then (filter_production_releases releases) filter_production_releases
  = filter_production_releases releases.
Proof.
  destruct (filter_production_releases releases) as [kept|e] eqn:H; [|reflexivity].
  cbn [and_then]. apply filter_all_kept. now apply (filter_kept releases).
Qed.

(** C10: a null [name] or [body] never makes [filter_production_releases]
    raise: on releases that all carry a tag it returns a list, whatever the
    other two fields hold.  A null [tag_name] does: on every list that holds a
    release without a tag the function raises the [AttributeError] of
    [None.lower()], and such a list exists. *)
Theorem filter_production_releases_null_fields :
  (forall releases,
      Forall (fun r => tag_name r <> None) releases ->
      exists kept, filter_production_releases releases = Ok kept)
  /\ (forall releases,
         Exists (fun r => tag_name r = None) releases ->
         filter_production_releases releases = Raise (none_has_no_attribute "lower"))
  /\ filter_production_releases
       [ {| tag_name := Some "v1.0"; name := None; body := None; published_at := "" |} ]
     = Ok []
  /\ filter_production_releases [untagged_release]
     = Raise (none_has_no_attribute "lower").
Proof.
  split; [|split; [|split]].
  - intros releases H. eexists. now apply filter_tagged.
  - apply filter_untagged.
  - reflexivity.
  - reflexivity.
Qed.

(** ** Filenames *)

Lemma sanitize_cons (c : ascii) (s : string) :
  sanitize_filename (String c s) = String (sanitize_char c) (sanitize_filename s).
Proof.
  unfold sanitize_filename, sanitize_char. cbn [PyStr.replace].
  destruct (c =? slash)%char; reflexivity.
Qed.

Lemma sanitize_char_not_slash (c : ascii) : (sanitize_char c =? slash)%char = false.
Proof.
  unfold sanitize_char.
  destruct (Ascii.eqb_spec c slash) as [->|Hs]; [reflexivity|].
  destruct (Ascii.eqb_spec c backslash) as [->|Hb]; [reflexivity|].
  now apply Ascii.eqb_neq.
Qed.

Lemma sanitize_char_not_backslash (c : ascii) : (sanitize_char c =? backslash)%char = false.
Proof.
  unfold sanitize_char.
  destruct (Ascii.eqb_spec c slash) as [->|Hs]; [reflexivity|].
  destruct (Ascii.eqb_spec c backslash) as [->|Hb]; [reflexivity|].
  now apply Ascii.eqb_neq.
Qed.

Lemma sanitize_char_separator (c : ascii) :
  is_separator c = true -> sanitize_char c = underscore.
Proof.
  unfold is_separator, sanitize_char.
  destruct (c =? slash)%char; [reflexivity|].
  destruct (c =? backslash)%char; [reflexivity|].
  cbn [orb]. intros H. now apply Ascii.eqb_eq in H.
Qed.

Lemma sanitize_char_other (c : ascii) :
  is_separator c = false -> sanitize_char c = c.
Proof.
  unfold is_separator, sanitize_char.
  destruct (c =? slash)%char; [discriminate|].
  destruct (c =? backslash)%char; [discriminate|reflexivity].
Qed.

Lemma sanitize_char_alike (c d : ascii) :
  sanitize_char c = sanitize_char d
  <-> ((c =? d)%char || (is_separator c && is_separator d)) = true.
Proof.
  destruct (is_separator c) eqn:Hc, (is_separator d) eqn:Hd;
    rewrite ?(sanitize_char_separator c Hc), ?(sanitize_char_separator d Hd),
            ?(sanitize_char_other c Hc), ?(sanitize_char_other d Hd);
    cbn [andb]; rewrite ?orb_true_r, ?orb_false_r.
  - tauto.
  - split.
    + intros <-. discriminate.
    + intros H. apply Ascii.eqb_eq in H. subst d. congruence.
  - split.
    + intros ->. discriminate.
    + intros H. apply Ascii.eqb_eq in H. subst d. congruence.
  - symmetry. apply Ascii.eqb_eq.
Qed.

Lemma sanitize_no_slash (s : string) : PyStr.count slash (sanitize_filename s) = 0.
Proof.
  induction s as [|c s IH]; [reflexivity|].
  rewrite sanitize_cons. cbn [PyStr.count].
  now rewrite sanitize_char_not_slash, IH.
Qed.

Lemma sanitize_no_backslash (s : string) : PyStr.count backslash (sanitize_filename s) = 0.
Proof.
  induction s as [|c s IH]; [reflexivity|].
  rewrite sanitize_cons. cbn [PyStr.count].
  now rewrite sanitize_char_not_backslash, IH.
Qed.

Lemma sanitize_alike (a b : string) :
  sanitize_filename a = sanitize_filename b <-> alike_up_to_separators a b = true.
Proof.
  revert b. induction a as [|c a IH]; intros [|d b]; cbn [alike_up_to_separators];
    rewrite ?sanitize_cons.
  - now split.
  - now split.
  - now split.
  - rewrite andb_true_iff, <- sanitize_char_alike, <- IH.
    split.
    + intros H. injection H as H1 H2. now split.
    + intros [-> ->]. reflexivity.
Qed.

Lemma sanitize_unchanged (s : string) :
  PyStr.count slash s = 0 -> PyStr.count backslash s = 0 -> sanitize_filename s = s.
Proof.
  induction s as [|c s IH]; [reflexivity|].
  cbn [PyStr.count]. intros Hs Hb.
  rewrite sanitize_cons. unfold sanitize_char.
  destruct (c =? slash)%char; [discriminate|].
  destruct (c =? backslash)%char; [discriminate|].
  now rewrite IH.
Qed.

(** C3, as the code has it: [sanitize_filename] is a total function whose
    result holds neither '/' nor '\', for every tag; two tags get the same
    filename exactly when they have the same length and, position by
    position, the same character or two of '/', '\' and '_'; so tags that
    hold neither '/' nor '\' keep their names and distinct ones get distinct
    filenames. *)
Theorem sanitize_filename_separators (a b : string) :
  PyStr.count slash (sanitize_filename a) = 0
  /\ PyStr.count backslash (sanitize_filename a) = 0
  /\ (sanitize_filename a = sanitize_filename b <-> alike_up_to_separators a b = true)
  /\ (PyStr.count slash a = 0 -> PyStr.count backslash a = 0 ->
      PyStr.count slash b = 0 -> PyStr.count backslash b = 0 ->
      a <> b -> sanitize_filename a <> sanitize_filename b).
Proof.
  split; [apply sanitize_no_slash|].
  split; [apply sanitize_no_backslash|].
  split; [apply sanitize_alike|].
  intros Ha1 Ha2 Hb1 Hb2 Hne.
  now rewrite (sanitize_unchanged a Ha1 Ha2), (sanitize_unchanged b Hb1 Hb2).
Qed.

(** C3, as the specification has it, fails: the valid tags "release/1.0"
    and "release_1.0" are distinct and get the same filename. *)
Lemma sanitize_filename_not_injective :
  ~ (forall a b : string, a <> b -> sanitize_filename a <> sanitize_filename b).
Proof.
  intros Hinj. apply (Hinj "release/1.0" "release_1.0").
  - discriminate.
  - reflexivity.
Qed.

(** ** Per-commit diff text *)

Lemma diff_summary_entries (files : list FileChange) :
  diff_summary files = map diff_entry (List.filter is_patched files).
Proof.
  induction files as [|file rest IH]; [reflexivity|].
  cbn [diff_summary List.filter]. unfold is_patched at 1.
  destruct (patch file) as [[|c changes]|] eqn:Hpatch;
    cbn [or_empty PyStr.truthy map]; rewrite IH; try reflexivity.
  unfold diff_entry at 2. now rewrite Hpatch.
Qed.

Lemma diff_text_unpatched (commit : Commit) :
  List.filter is_patched (files_of commit) = [] ->
  diff_text commit = no_detailed_changes.
Proof.
  unfold diff_text. intros H.
  now rewrite diff_summary_entries, H.
Qed.

Lemma diff_text_patched (commit : Commit) :
  List.filter is_patched (files_of commit) <> [] ->
  diff_text commit
  = PyStr.join (PyStr.nl ++ PyStr.nl) (map diff_entry (List.filter is_patched (files_of commit))).
Proof.
  unfold diff_text. intros H.
  rewrite diff_summary_entries.
  destruct (List.filter is_patched (files_of commit)); [now elim H|reflexivity].
Qed.

Lemma is_patched_spec (file : FileChange) : is_patched file = has_patch file.
Proof. unfold is_patched, has_patch. now destruct (patch file) as [[|c changes]|]. Qed.

Lemma diff_entry_spec (file : FileChange) : diff_entry file = entry_of file.
Proof.
  unfold diff_entry, entry_of, or_empty.
  destruct (filename file), (patch file); reflexivity.
Qed.

Lemma join_blank_lines (entries : list string) :
  PyStr.join (PyStr.nl ++ PyStr.nl) entries = blank_line_separated entries.
Proof.
  unfold PyStr.join.
  induction entries as [|entry rest IH]; [reflexivity|].
  destruct rest as [|next rest]; [reflexivity|].
  cbn [String.concat blank_line_separated] in *. now rewrite IH.
Qed.

(** C5, as the code has it: for a commit none of whose files has a
    non-empty patch, the diff text is "No detailed changes available", and it
    is what the user message handed to the completion call ends with; for a
    commit with a patched file the diff text is made of the entries of the
    patched files, in file order, one blank line between two entries, the
    unpatched files left out. *)
Theorem diff_text_of_commit (w : World) (commit : Commit) :
  (List.filter has_patch (files_of commit) = [] ->
     diff_text commit = "No detailed changes available")
  /\ (List.filter has_patch (files_of commit) <> [] ->
        diff_text commit
        = blank_line_separated (map entry_of (List.filter has_patch (files_of commit))))
  /\ subsequence (List.filter has_patch (files_of commit)) (files_of commit)
  /\ (exists system,
        fst (summarize_commit w commit)
        = [Completed [system;
             {| role := "user";
                content := "Commit message: " ++ message commit ++ line_feed
                           ++ "Author: " ++ author_name commit ++ blank_line
                           ++ "Code Changes:" ++ line_feed ++ diff_text commit |}]]).
Proof.
  rewrite <- (filter_ext is_patched has_patch is_patched_spec).
  split; [apply diff_text_unpatched|].
  split.
  - intros Hpatched. rewrite (diff_text_patched commit Hpatched), join_blank_lines.
    now rewrite (map_ext diff_entry entry_of diff_entry_spec).
  - split; [apply filter_subsequence|].
    eexists. unfold summarize_commit, complete, commit_messages, bind, emit, lift.
    reflexivity.
Qed.

(** C5, as the specification has it, fails: the diff text of a commit with
    two patched files is not their entries put end to end, for a blank line
    stands between the two. *)
Lemma diff_text_not_concatenated :
  ~ (forall commit,
        List.filter has_patch (files_of commit) <> [] ->
        diff_text commit
        = concatenated (map entry_of (List.filter has_patch (files_of commit)))).
Proof.
  intros Hall.
  assert (Hpatched :
            List.filter has_patch (files_of (with_detailed_diff sample_commit sample_files))
            <> []) by discriminate.
  specialize (Hall (with_detailed_diff sample_commit sample_files) Hpatched).
  vm_compute in Hall. discriminate Hall.
Qed.

(** ** Commit range resolution *)

Lemma fetch_detailed_diff_spec (w : World) (repository : string) (commit : Commit) :
  fetch_detailed_diff w repository commit
  = ([detail_request repository commit], Ok (detailed w repository commit)).
Proof.
  unfold fetch_detailed_diff, detailed, detail_request, bind, emit, ret.
  destruct (Nat.eqb _ 200); reflexivity.
Qed.

Lemma fetch_detailed_diffs_spec (w : World) (repository : string) (commits : list Commit) :
  fetch_detailed_diffs w repository commits
  = (map (detail_request repository) commits, Ok (map (detailed w repository) commits)).
Proof.
  induction commits as [|commit rest IH]; [reflexivity|].
  cbn [fetch_detailed_diffs map]. rewrite fetch_detailed_diff_spec, IH.
  unfold bind, ret. cbn. now rewrite app_nil_r.
Qed.

Lemma get_commits_between_tags_ok (w : World) (repository base_tag head_tag : string) :
  status_code (compare_endpoint w repository base_tag head_tag) = 200 ->
  get_commits_between_tags w repository base_tag head_tag
  = (Requested (compare_url repository base_tag head_tag) []
       :: map (detail_request repository)
              (json (compare_endpoint w repository base_tag head_tag)),
     Ok (map (detailed w repository)
             (json (compare_endpoint w repository base_tag head_tag)))).
Proof.
  intros Hstatus. unfold get_commits_between_tags.
  rewrite Hstatus, fetch_detailed_diffs_spec. reflexivity.
Qed.

Lemma detailed_failed (w : World) (repository : string) (commit : Commit) :
  status_code (commit_endpoint w repository (sha commit)) <> 200 ->
  detailed w repository commit = commit.
Proof.
  intros Hstatus. unfold detailed.
  apply Nat.eqb_neq in Hstatus. now rewrite Hstatus.
Qed.

Lemma summarize_commit_spec (w : World) (commit : Commit) :
  summarize_commit w commit
  = ([Completed (commit_messages commit)], completion_content w (commit_messages commit)).
Proof.
  unfold summarize_commit, complete, bind, emit, lift.
  destruct (completion_content w (commit_messages commit)); reflexivity.
Qed.

(** C9: when the single-commit request of a commit of the range is answered
    with a status other than 200, [get_commits_between_tags] still returns
    the whole range, with that commit at its position and as the compare
    endpoint gave it, so without a [detailed_diff]; [summarize_commit] then
    reads no files, uses "No detailed changes available", sends the very
    request it sends for the commit with an empty file list, and returns
    whatever text the completion gives: the missing field raises nothing. *)
Theorem failed_detail_fetch_kept (w : World) (repository base_tag head_tag : string)
    (i : nat) (commit : Commit) :
  status_code (compare_endpoint w repository base_tag head_tag) = 200 ->
  nth_error (json (compare_endpoint w repository base_tag head_tag)) i = Some commit ->
  detailed_diff commit = None ->
  status_code (commit_endpoint w repository (sha commit)) <> 200 ->
  (exists trace commits,
      get_commits_between_tags w repository base_tag head_tag = (trace, Ok commits)
      /\ List.length commits
         = List.length (json (compare_endpoint w repository base_tag head_tag))
      /\ nth_error commits i = Some commit)
  /\ diff_text commit = "No detailed changes available"
  /\ summarize_commit w commit = summarize_commit w (with_detailed_diff commit [])
  /\ (forall text,
         completion_content w (commit_messages commit) = Ok text ->
         snd (summarize_commit w commit) = Ok text).
Proof.
  intros Hcompare Hnth Hfield Hstatus. split; [|split; [|split]].
  - do 2 eexists. split; [now apply get_commits_between_tags_ok|]. split.
    + apply length_map.
    + rewrite nth_error_map, Hnth. cbn [option_map].
      now rewrite (detailed_failed w repository commit Hstatus).
  - apply diff_text_unpatched. unfold files_of. now rewrite Hfield.
  - rewrite !summarize_commit_spec.
    assert (Hm : commit_messages (with_detailed_diff commit []) = commit_messages commit).
    { unfold commit_messages, diff_text, files_of. now rewrite Hfield. }
    now rewrite Hm.
  - intros text Htext. now rewrite summarize_commit_spec.
Qed.

(** ** Changelog generation *)

Lemma generate_release_changelog_empty (w : World) (repository : string)
    (current_release : Release) (previous_tag : option string) :
  snd (get_commits_between_tags w repository (fmt previous_tag)
         (fmt (tag_name current_release))) = Ok [] ->
  generate_release_changelog w repository current_release previous_tag
  = (fst (get_commits_between_tags w repository (fmt previous_tag)
            (fmt (tag_name current_release)))
       ++ [Printed (PyStr.nl ++ "Analyzing 0 commits...");
           Completed (changelog_messages [])],
     completion_content w (changelog_messages [])).
Proof.
  unfold generate_release_changelog.
  destruct (get_commits_between_tags _ _ _ _) as [trace r]. cbn [fst snd].
  intros ->. unfold bind, emit, complete, lift, ret. cbn.
  destruct (completion_content w (changelog_messages [])); reflexivity.
Qed.

(** ** Sequencing *)

Lemma bind_ret {A B : Type} (a : A) (k : A -> IO B) : bind (ret a) k = k a.
Proof. unfold bind, ret. now destruct (k a). Qed.

Lemma bind_lift_ok {A B : Type} (a : A) (k : A -> IO B) : bind (lift (Ok a)) k = k a.
Proof. unfold bind, lift. now destruct (k a). Qed.

Lemma bind_emit {B : Type} (ev : Event) (k : unit -> IO B) :
  bind (emit ev) k = (ev :: fst (k tt), snd (k tt)).
Proof. unfold bind, emit. now destruct (k tt). Qed.

Lemma bind_trace {A B : Type} (m : IO A) (k : A -> IO B) :
  exists rest, fst (bind m k) = fst m ++ rest.
Proof.
  destruct m as [t [a|e]]; cbn [bind fst].
  - destruct (k a) as [t' r]. now exists t'.
  - exists []. now rewrite app_nil_r.
Qed.

(** ** Single-release mode *)

Section SingleRelease.

Variable w : World.
Variable repository : string.
Variable production_releases : list Release.

Lemma in_range_nat (i : nat) :
  i < List.length production_releases ->
  in_range production_releases (Z.of_nat i) = true.
Proof.
  intros Hi. unfold in_range. apply andb_true_iff. split.
  - apply Z.leb_le. lia.
  - apply Z.ltb_lt. lia.
Qed.

Lemma list_get_nat (i : nat) (release : Release) :
  nth_error production_releases i = Some release ->
  list_get production_releases (Z.to_nat (Z.of_nat i)) = Ok release.
Proof.
  intros Hnth. unfold list_get. now rewrite Nat2Z.id, Hnth.
Qed.

(** The lookup of the previous tag is positional: the tag of the next
    element, and [None] when there is no next element. *)
Lemma previous_tag_of_nat (i : nat) :
  previous_tag_of production_releases (Z.of_nat i)
  = Ok match nth_error production_releases (S i) with
       | Some previous => tag_name previous
       | None => None
       end.
Proof.
  unfold previous_tag_of.
  destruct (Z.ltb_spec (Z.of_nat i + 1) (Z.of_nat (List.length production_releases)))
    as [Hlt|Hge].
  - replace (Z.to_nat (Z.of_nat i + 1)) with (S i) by lia.
    unfold list_get.
    destruct (nth_error production_releases (S i)) as [previous|] eqn:Hnth.
    + reflexivity.
    + apply nth_error_None in Hnth. lia.
  - destruct (nth_error production_releases (S i)) as [previous|] eqn:Hnth.
    + assert (S i < List.length production_releases)
        by (apply nth_error_Some; congruence).
      lia.
    + reflexivity.
Qed.

Lemma index_of_parsed (selection : string) (n : Z) :
  int_of w selection = Some n -> index_of w selection = ret (n - 1)%Z.
Proof. intros H. unfold index_of. now rewrite H. Qed.

Lemma process_release_in_range (selection : string) (i : nat) (release : Release) :
  int_of w selection = Some (Z.of_nat i + 1)%Z ->
  nth_error production_releases i = Some release ->
  process_release w repository production_releases selection
  = changelog_since_previous w repository production_releases (Z.of_nat i) release.
Proof.
  intros Hparse Hnth. unfold process_release.
  rewrite (index_of_parsed selection _ Hparse), bind_ret.
  replace (Z.of_nat i + 1 - 1)%Z with (Z.of_nat i) by lia.
  assert (Hi : i < List.length production_releases)
    by (apply nth_error_Some; congruence).
  now rewrite (in_range_nat i Hi), (list_get_nat i release Hnth), bind_lift_ok.
Qed.

Lemma changelog_since_previous_some (i : nat) (release previous : Release) (t : string) :
  nth_error production_releases (S i) = Some previous ->
  tag_name previous = Some t ->
  t <> "" ->
  changelog_since_previous w repository production_releases (Z.of_nat i) release
  = (emit (Printed (PyStr.nl ++ "Processing release: " ++ fmt (tag_name release))) ;;
     changelog <- generate_release_changelog w repository release (Some t) ;;
     save_changelog w release changelog).
Proof.
  intros Hnext Htag Ht. unfold changelog_since_previous.
  rewrite previous_tag_of_nat, Hnext, Htag.
  f_equal. rewrite bind_lift_ok.
  destruct t; [now elim Ht|reflexivity].
Qed.

Lemma changelog_since_previous_last (i : nat) (release : Release) :
  S i = List.length production_releases ->
  changelog_since_previous w repository production_releases (Z.of_nat i) release
  = ([Printed (PyStr.nl ++ "Processing release: " ++ fmt (tag_name release));
      Printed oldest_release_notice], Ok tt).
Proof.
  intros Hlast. unfold changelog_since_previous.
  rewrite previous_tag_of_nat.
  assert (Hnone : nth_error production_releases (S i) = None)
    by (apply nth_error_None; lia).
  rewrite Hnone. reflexivity.
Qed.

End SingleRelease.

Lemma generate_release_changelog_request (w : World) (repository : string)
    (current_release : Release) (previous_tag : option string) :
  exists rest,
    fst (generate_release_changelog w repository current_release previous_tag)
    = Requested (compare_url repository (fmt previous_tag)
                   (fmt (tag_name current_release))) [] :: rest.
Proof.
  unfold generate_release_changelog.
  destruct (bind_trace
              (get_commits_between_tags w repository (fmt previous_tag)
                 (fmt (tag_name current_release)))
              (fun commits =>
                 emit (Printed (PyStr.nl ++ "Analyzing "
                                  ++ PyStr.of_nat (List.length commits) ++ " commits...")) ;;
                 commit_summaries <- summarize_commits w (List.length commits) 1 commits ;;
                 complete w (changelog_messages commit_summaries)))
    as [rest Hrest].
  rewrite Hrest. unfold get_commits_between_tags. rewrite bind_emit.
  cbn [fst]. eexists. reflexivity.
Qed.

(** C1: in single-release mode, for every list of production releases and
    every selected position [i] of it, the previous tag looked up is the
    [tag_name] of the element at [i + 1], and [None] when there is none.
    When that tag is a non-empty string the changelog is generated against
    it, the range request naming it as its base.  When [i] is the last
    position there is no previous release: the round prints the notice of the
    oldest release and nothing else happens, so no request is made and no
    file is written. *)
Theorem previous_release_is_next_element (w : World) (repository : string)
    (production_releases : list Release) (selection : string) (i : nat)
    (release : Release) :
  int_of w selection = Some (Z.of_nat i + 1)%Z ->
  nth_error production_releases i = Some release ->
  previous_tag_of production_releases (Z.of_nat i)
  = Ok match nth_error production_releases (S i) with
       | Some previous => tag_name previous
       | None => None
       end
  /\ (forall previous t,
         nth_error production_releases (S i) = Some previous ->
         tag_name previous = Some t ->
         t <> "" ->
         process_release w repository production_releases selection
         = (emit (Printed (PyStr.nl ++ "Processing release: " ++ fmt (tag_name release))) ;;
            changelog <- generate_release_changelog w repository release (tag_name previous) ;;
            save_changelog w release changelog)
         /\ exists rest,
             fst (process_release w repository production_releases selection)
             = Printed (PyStr.nl ++ "Processing release: " ++ fmt (tag_name release))
               :: Requested (compare_url repository t (fmt (tag_name release))) []
               :: rest)
  /\ (S i = List.length production_releases ->
      previous_tag_of production_releases (Z.of_nat i) = Ok None
      /\ process_release w repository production_releases selection
         = ([Printed (PyStr.nl ++ "Processing release: " ++ fmt (tag_name release));
             Printed oldest_release_notice], Ok tt)
      /\ forallb (fun ev => negb (is_write ev || is_request ev || is_completion ev))
           (reported "release" (process_release w repository production_releases selection))
         = true).
Proof.
  intros Hparse Hnth. split; [apply previous_tag_of_nat|]. split.
  - intros previous t Hnext Htag Ht.
    rewrite (process_release_in_range w repository production_releases
               selection i release Hparse Hnth).
    rewrite (changelog_since_previous_some w repository production_releases
               i release previous t Hnext Htag Ht).
    rewrite Htag. split; [reflexivity|].
    rewrite bind_emit. cbn [fst].
    destruct (bind_trace (generate_release_changelog w repository release (Some t))
                (fun changelog => save_changelog w release changelog)) as [rest Hrest].
    destruct (generate_release_changelog_request w repository release (Some t))
      as [rest' Hrest'].
    rewrite Hrest, Hrest'. cbn [fmt app]. eexists. reflexivity.
  - intros Hlast.
    rewrite (process_release_in_range w repository production_releases
               selection i release Hparse Hnth).
    rewrite (changelog_since_previous_last w repository production_releases
               i release Hlast).
    rewrite previous_tag_of_nat.
    assert (Hnone : nth_error production_releases (S i) = None)
      by (apply nth_error_None; lia).
    rewrite Hnone. repeat split.
Qed.

Lemma save_changelog_tagged (w : World) (release : Release) (tag changelog : string) :
  tag_name release = Some tag ->
  makedirs_result w "changelogs" = Ok tt ->
  open_result w (changelog_path (sanitize_filename tag)) = Ok tt ->
  save_changelog w release changelog
  = ([Printed (PyStr.nl ++ "Changelog:");
      PrintedMarkdown changelog;
      MadeDirs "changelogs";
      Wrote (changelog_path (sanitize_filename tag)) (changelog_file release changelog);
      Printed (PyStr.nl ++ "Changelog saved to: " ++ changelog_path (sanitize_filename tag))],
     Ok tt).
Proof.
  intros Htag Hdirs Hopen. unfold save_changelog, makedirs, write_file.
  rewrite Htag, Hdirs. cbn [sanitize_filename_of]. rewrite bind_lift_ok, Hopen.
  cbv [bind emit app]. reflexivity.
Qed.

Lemma save_changelog_unopened (w : World) (release : Release) (tag changelog : string)
    (e : Exc) :
  tag_name release = Some tag ->
  makedirs_result w "changelogs" = Ok tt ->
  open_result w (changelog_path (sanitize_filename tag)) = Raise e ->
  save_changelog w release changelog
  = ([Printed (PyStr.nl ++ "Changelog:");
      PrintedMarkdown changelog;
      MadeDirs "changelogs"],
     Raise e).
Proof.
  intros Htag Hdirs Hopen. unfold save_changelog, makedirs, write_file.
  rewrite Htag, Hdirs. cbn [sanitize_filename_of]. rewrite bind_lift_ok, Hopen.
  cbv [bind emit raise app]. reflexivity.
Qed.

(** C6: whenever the range between the two tags comes back empty,
    [generate_release_changelog] prints the count of zero commits, asks for no
    commit summary and makes the consolidating completion call once, its
    user message being the join of no summaries, the empty string; the
    outcome of the function is the outcome of that call, so a text returned
    by it is returned, and the round of single-release mode then saves it,
    the output directory and the file being there to write. *)
Theorem empty_range_is_consolidated (w : World) (repository : string)
    (current_release : Release) (previous_tag : option string) :
  snd (get_commits_between_tags w repository (fmt previous_tag)
         (fmt (tag_name current_release))) = Ok [] ->
  generate_release_changelog w repository current_release previous_tag
  = (fst (get_commits_between_tags w repository (fmt previous_tag)
            (fmt (tag_name current_release)))
       ++ [Printed (PyStr.nl ++ "Analyzing 0 commits...");
           Completed [ {| role := "system"; content := changelog_system_prompt |};
                       {| role := "user"; content := "" |} ]],
     completion_content w (changelog_messages []))
  /\ changelog_messages []
     = [ {| role := "system"; content := changelog_system_prompt |};
         {| role := "user"; content := "" |} ]
  /\ (forall text,
         completion_content w (changelog_messages []) = Ok text ->
         snd (generate_release_changelog w repository current_release previous_tag)
         = Ok text
         /\ forall tag,
             tag_name current_release = Some tag ->
             makedirs_result w "changelogs" = Ok tt ->
             open_result w (changelog_path (sanitize_filename tag)) = Ok tt ->
             exists trace,
               (changelog <- generate_release_changelog w repository
                               current_release previous_tag ;;
                save_changelog w current_release changelog)
               = (trace ++ [Wrote (changelog_path (sanitize_filename tag))
                              (changelog_file current_release text);
                            Printed (PyStr.nl ++ "Changelog saved to: "
                                       ++ changelog_path (sanitize_filename tag))],
                  Ok tt)).
Proof.
  intros Hempty.
  pose proof (generate_release_changelog_empty w repository current_release
                previous_tag Hempty) as Hgen.
  split; [exact Hgen|]. split; [reflexivity|].
  intros text Htext. rewrite Hgen, Htext. split; [reflexivity|].
  intros tag Htag Hdirs Hopen.
  exists (fst (get_commits_between_tags w repository (fmt previous_tag)
                 (fmt (tag_name current_release)))
          ++ [Printed (PyStr.nl ++ "Analyzing 0 commits...");
              Completed (changelog_messages []);
              Printed (PyStr.nl ++ "Changelog:");
              PrintedMarkdown text;
              MadeDirs "changelogs"]).
  cbv beta iota delta [bind].
  rewrite (save_changelog_tagged w current_release tag text Htag Hdirs Hopen).
  rewrite <- !app_assoc. reflexivity.
Qed.

(** ** Compare mode *)

Lemma process_comparison_wrong_order (w : World) (repository : string)
    (production_releases : list Release) (newer_release older_release : string)
    (newer_idx older_idx : Z) :
  int_of w newer_release = Some (newer_idx + 1)%Z ->
  int_of w older_release = Some (older_idx + 1)%Z ->
  in_range production_releases newer_idx = true ->
  in_range production_releases older_idx = true ->
  (newer_idx >= older_idx)%Z ->
  process_comparison w repository production_releases newer_release older_release
  = ([Printed wrong_order_notice], Ok tt).
Proof.
  intros Hnewer Holder Hin_newer Hin_older Horder. unfold process_comparison.
  rewrite (index_of_parsed w newer_release _ Hnewer), bind_ret.
  rewrite (index_of_parsed w older_release _ Holder), bind_ret.
  replace (newer_idx + 1 - 1)%Z with newer_idx by lia.
  replace (older_idx + 1 - 1)%Z with older_idx by lia.
  rewrite Hin_newer, Hin_older. cbn [andb].
  assert (Hgeb : (newer_idx >=? older_idx)%Z = true) by (apply Z.geb_le; lia).
  now rewrite Hgeb.
Qed.

(** C2: in compare mode, for every pair of selections in range whose newer
    position is not strictly less than the older one, the equal pair
    included, the round only prints that the first release must be the newer
    one: it makes no request, so the range is never resolved, asks for no
    completion and writes no file; and the loop goes on with the next
    round. *)
Theorem wrong_order_is_rejected (w : World) (repository : string)
    (production_releases : list Release) (newer_release older_release : string)
    (newer_idx older_idx : Z) :
  int_of w newer_release = Some (newer_idx + 1)%Z ->
  int_of w older_release = Some (older_idx + 1)%Z ->
  in_range production_releases newer_idx = true ->
  in_range production_releases older_idx = true ->
  (newer_idx >= older_idx)%Z ->
  process_comparison w repository production_releases newer_release older_release
  = ([Printed wrong_order_notice], Ok tt)
  /\ compare_round w repository production_releases newer_release older_release
     = compare_heading ++ [older_prompt; Printed wrong_order_notice]
  /\ forallb (fun ev => negb (is_write ev || is_request ev || is_completion ev))
       (compare_round w repository production_releases newer_release older_release)
     = true
  /\ (forall fuel line,
         typed w line = newer_release ->
         typed w (S line) = older_release ->
         (PyStr.lower newer_release =? "q")%string = false ->
         compare_mode w repository production_releases (S fuel) line
         = option_map
             (app (compare_heading ++ [older_prompt; Printed wrong_order_notice]))
             (compare_mode w repository production_releases fuel (S (S line)))).
Proof.
  intros Hnewer Holder Hin_newer Hin_older Horder.
  pose proof (process_comparison_wrong_order w repository production_releases
                newer_release older_release newer_idx older_idx
                Hnewer Holder Hin_newer Hin_older Horder) as Hbody.
  assert (Hround :
            compare_round w repository production_releases newer_release older_release
            = compare_heading ++ [older_prompt; Printed wrong_order_notice]).
  { unfold compare_round, reported. now rewrite Hbody. }
  split; [exact Hbody|]. split; [exact Hround|]. split.
  - rewrite Hround. reflexivity.
  - intros fuel line Hline Hnext Hquit.
    cbn [compare_mode]. now rewrite Hline, Hnext, Hquit, Hround.
Qed.

(** ** Pagination of the releases *)

Lemma after_nil {A : Type} (m : option (list Event * A)) : after [] m = m.
Proof. now destruct m as [[t a]|]. Qed.

Lemma after_after {A : Type} (t t' : list Event) (m : option (list Event * A)) :
  after t (after t' m) = after (t ++ t') m.
Proof.
  destruct m as [[t'' a]|]; cbn [after]; [|reflexivity].
  now rewrite app_assoc.
Qed.

Section Pagination.

Variable w : World.
Variable repository : string.

(** As long as the pages hold releases the loop asks for the next one,
    gathering what they hold. *)
Lemma fetch_releases_from_pages (pages : list (list Release)) :
  forall (fuel page : nat) (releases : list Release),
    Forall (fun p => p <> []) pages ->
    (forall i, i < List.length pages ->
               releases_endpoint w repository (page + i)
               = {| status_code := 200; json := nth i pages [] |}) ->
    fetch_releases_from w (List.length pages + fuel) repository page releases
    = after (map (page_request repository) (seq page (List.length pages)))
        (fetch_releases_from w fuel repository (page + List.length pages)
           (releases ++ concat pages)).
Proof.
  induction pages as [|p pages IH]; intros fuel page releases Hfull Hpages.
  - cbn [List.length seq map concat Nat.add].
    now rewrite after_nil, Nat.add_0_r, app_nil_r.
  - inversion Hfull as [|? ? Hp Hfull']; subst.
    cbn [List.length Nat.add fetch_releases_from].
    pose proof (Hpages 0 (Nat.lt_0_succ _)) as Hfirst.
    rewrite Nat.add_0_r in Hfirst. rewrite Hfirst. cbn [status_code json nth Nat.eqb negb].
    destruct p as [|r p]; [now elim Hp|].
    rewrite (IH fuel (S page) (releases ++ r :: p) Hfull').
    + rewrite after_after. cbn [seq map app concat].
      now rewrite Nat.add_succ_r, <- app_assoc.
    + intros i Hi. cbn [Nat.add].
      rewrite <- Nat.add_succ_r. rewrite (Hpages (S i)); [reflexivity|].
      cbn [List.length]. lia.
Qed.

Lemma fetch_releases_from_empty_page (fuel page : nat) (releases : list Release) :
  status_code (releases_endpoint w repository page) = 200 ->
  json (releases_endpoint w repository page) = [] ->
  fetch_releases_from w (S fuel) repository page releases
  = Some ([page_request repository page], Ok releases).
Proof.
  intros Hstatus Hjson. cbn [fetch_releases_from].
  now rewrite Hstatus, Hjson.
Qed.

Lemma fetch_releases_from_failure (fuel page : nat) (releases : list Release) :
  status_code (releases_endpoint w repository page) <> 200 ->
  fetch_releases_from w (S fuel) repository page releases
  = Some ([page_request repository page;
           Printed ("Failed to fetch releases: "
                      ++ PyStr.of_nat (status_code (releases_endpoint w repository page)))],
          Ok []).
Proof.
  intros Hstatus. cbn [fetch_releases_from].
  apply Nat.eqb_neq in Hstatus. now rewrite Hstatus.
Qed.

End Pagination.

(** C4: [fetch_releases] asks for the pages 1, 2, ... of the releases of
    the repository, each request carrying its page number and a page size of
    100.  When the first pages hold releases and the next one is answered 200
    with no item, it has asked for exactly those pages and returns what they
    hold, concatenated in order.  When the next one is instead answered with
    a status other than 200, at whatever point of the pagination, it prints
    the status and returns the empty list, dropping what it gathered: the
    value returned is the one returned for a repository without releases. *)
Theorem fetch_releases_pages (w : World) (repository : string)
    (pages : list (list Release)) (fuel : nat) :
  Forall (fun p => p <> []) pages ->
  (forall i, i < List.length pages ->
             releases_endpoint w repository (S i)
             = {| status_code := 200; json := nth i pages [] |}) ->
  List.length pages < fuel ->
  (status_code (releases_endpoint w repository (S (List.length pages))) = 200 ->
   json (releases_endpoint w repository (S (List.length pages))) = [] ->
   fetch_releases w fuel repository
   = Some (map (fun page =>
                  Requested ("https://api.github.com/repos/" ++ repository ++ "/releases")
                    [("page", NilEmpty.string_of_uint (Nat.to_uint page));
                     ("per_page", "100")])
             (seq 1 (S (List.length pages))),
           Ok (concat pages)))
  /\ (status_code (releases_endpoint w repository (S (List.length pages))) <> 200 ->
      fetch_releases w fuel repository
      = Some (map (fun page =>
                     Requested
                       ("https://api.github.com/repos/" ++ repository ++ "/releases")
                       [("page", NilEmpty.string_of_uint (Nat.to_uint page));
                        ("per_page", "100")])
                (seq 1 (S (List.length pages)))
                ++ [Printed ("Failed to fetch releases: "
                               ++ NilEmpty.string_of_uint
                                    (Nat.to_uint
                                       (status_code
                                          (releases_endpoint w repository
                                             (S (List.length pages))))))],
              Ok [])
      /\ forall (w0 : World) (repository0 : string),
          status_code (releases_endpoint w0 repository0 1) = 200 ->
          json (releases_endpoint w0 repository0 1) = [] ->
          option_map snd (fetch_releases w0 fuel repository0)
          = option_map snd (fetch_releases w fuel repository)).
Proof.
  intros Hfull Hpages Hfuel.
  change (fun page =>
            Requested ("https://api.github.com/repos/" ++ repository ++ "/releases")
              [("page", NilEmpty.string_of_uint (Nat.to_uint page)); ("per_page", "100")])
    with (page_request repository).
  assert (Hsplit : fuel = List.length pages + S (fuel - S (List.length pages))) by lia.
  assert (Hrun :
            fetch_releases w fuel repository
            = after (map (page_request repository) (seq 1 (List.length pages)))
                (fetch_releases_from w (S (fuel - S (List.length pages))) repository
                   (S (List.length pages)) (concat pages))).
  { unfold fetch_releases. rewrite Hsplit at 1.
    now rewrite (fetch_releases_from_pages w repository pages _ 1 [] Hfull Hpages). }
  assert (Hseq : forall n, seq 1 (S n) = seq 1 n ++ [S n]).
  { intros n. now rewrite seq_S. }
  split.
  - intros Hstatus Hjson. rewrite Hrun.
    rewrite (fetch_releases_from_empty_page w repository _ _ _ Hstatus Hjson).
    cbn [after]. now rewrite Hseq, map_app.
  - intros Hstatus. split.
    + rewrite Hrun.
      rewrite (fetch_releases_from_failure w repository _ _ _ Hstatus).
      cbn [after]. rewrite Hseq, map_app, <- app_assoc. reflexivity.
    + intros w0 repository0 Hstatus0 Hjson0.
      rewrite Hrun.
      rewrite (fetch_releases_from_failure w repository _ _ _ Hstatus).
      unfold fetch_releases. destruct fuel as [|fuel']; [lia|].
      now rewrite (fetch_releases_from_empty_page w0 repository0 _ _ _ Hstatus0 Hjson0).
Qed.

(** ** The properties on the sample data *)

Example sanitize_release_branch :
  sanitize_filename "release/2.0-production" = "release_2.0-production".
Proof. reflexivity. Qed.

Example scenario_filter :
  filter_production_releases sample_releases = Ok sample_production.
Proof. reflexivity. Qed.

(** C1 on the scenario: selecting release 1 resolves "v1.0-production". *)
Lemma previous_release_is_next_element_sample :
  previous_tag_of sample_production 0 = Ok (Some "v1.0-production").
Proof.
  exact (proj1 (previous_release_is_next_element sample_world sample_repository
                  sample_production "1" 0 (release_of_tag "v2.0-production")
                  eq_refl eq_refl)).
Defined.

(** C2 on the scenario: newer 1 and older 1 are rejected. *)
Lemma wrong_order_is_rejected_sample :
  process_comparison sample_world sample_repository sample_production "1" "1"
  = ([Printed wrong_order_notice], Ok tt).
Proof.
  refine (proj1 (wrong_order_is_rejected sample_world sample_repository
                   sample_production "1" "1" 0 0 eq_refl eq_refl eq_refl eq_refl _)).
  lia.
Defined.

(** C3 on two tags without path separators. *)
Lemma sanitize_filename_separators_sample :
  sanitize_filename "v1.0" <> sanitize_filename "v1_0".
Proof.
  refine (proj2 (proj2 (proj2 (sanitize_filename_separators "v1.0" "v1_0")))
            eq_refl eq_refl eq_refl eq_refl _).
  discriminate.
Defined.

(** C4 on the sample repository, whose second page is empty, and on the
    repository whose second page is answered 503. *)
Lemma fetch_releases_pages_sample :
  fetch_releases sample_world 3 "acme/shop"
  = Some ([ Requested "https://api.github.com/repos/acme/shop/releases"
              [("page", "1"); ("per_page", "100")];
            Requested "https://api.github.com/repos/acme/shop/releases"
              [("page", "2"); ("per_page", "100")] ],
          Ok sample_releases)
  /\ fetch_releases sample_world 3 "acme/broken"
     = Some ([ Requested "https://api.github.com/repos/acme/broken/releases"
                 [("page", "1"); ("per_page", "100")];
               Requested "https://api.github.com/repos/acme/broken/releases"
                 [("page", "2"); ("per_page", "100")];
               Printed "Failed to fetch releases: 503" ],
             Ok []).
Proof.
  assert (Hfull : Forall (fun p : list Release => p <> []) [sample_releases])
    by (repeat constructor; discriminate).
  assert (Hfuel : List.length [sample_releases] < 3) by (cbn [List.length]; lia).
  split.
  - refine (proj1 (fetch_releases_pages sample_world "acme/shop"
                     [sample_releases] 3 Hfull _ Hfuel) eq_refl eq_refl).
    intros [|i] Hi; [reflexivity|]. cbn [List.length] in Hi. lia.
  - refine (proj1 (proj2 (fetch_releases_pages sample_world "acme/broken"
                            [sample_releases] 3 Hfull _ Hfuel) _)).
    + intros [|i] Hi; [reflexivity|]. cbn [List.length] in Hi. lia.
    + discriminate.
Defined.

(** C5 on a commit with two patched files and an unpatched one between. *)
Lemma diff_text_of_commit_sample :
  diff_text (with_detailed_diff sample_commit sample_files)
  = "File: app.py
+print(1)

File: util.py
-x = 2".
Proof.
  refine (proj1 (proj2 (diff_text_of_commit sample_world
                          (with_detailed_diff sample_commit sample_files))) _).
  discriminate.
Defined.

(** C6 on a range without commits. *)
Lemma empty_range_is_consolidated_sample :
  snd (generate_release_changelog sample_world sample_repository
         (release_of_tag "v2.0-production") (Some "v0.1"))
  = Ok "Summary.".
Proof.
  exact (proj1 (proj2 (proj2 (empty_range_is_consolidated sample_world sample_repository
                                (release_of_tag "v2.0-production") (Some "v0.1") eq_refl))
                 "Summary." eq_refl)).
Defined.

(** C7 on releases in several letter cases: the first, the second and the
    fourth are retained. *)
Lemma filter_production_releases_exact_sample :
  filter_production_releases mixed_case_releases
  = Ok [ {| tag_name := Some "V2.0-PRODUCTION"; name := None; body := None;
            published_at := "2024-05-01T00:00:00Z" |};
         {| tag_name := Some "v1.9"; name := Some "Hotfix for Production"; body := None;
            published_at := "2024-04-01T00:00:00Z" |};
         {| tag_name := Some "v1.7"; name := None;
            body := Some "Rolled out to PrOdUcTiOn.";
            published_at := "2024-02-01T00:00:00Z" |} ].
Proof.
  refine (proj1 (filter_production_releases_exact mixed_case_releases _)).
  repeat constructor; discriminate.
Defined.

(** C9 on the sample range, whose single-commit request is answered 404. *)
Lemma failed_detail_fetch_kept_sample :
  diff_text sample_commit = "No detailed changes available"
  /\ summarize_commit sample_world sample_commit
     = summarize_commit sample_world (with_detailed_diff sample_commit []).
Proof.
  refine (let H := failed_detail_fetch_kept sample_world sample_repository
                     "v1.0-production" "v2.0-production" 0 sample_commit
                     eq_refl eq_refl eq_refl _ in
          conj (proj1 (proj2 H)) (proj1 (proj2 (proj2 H)))).
  discriminate.
Defined.

(** C10 on a release without a tag whose title would match. *)
Lemma filter_production_releases_null_fields_sample :
  filter_production_releases [release_of_tag "v2.0-production"; untagged_release]
  = Raise (none_has_no_attribute "lower").
Proof.
  refine (proj1 (proj2 filter_production_releases_null_fields) _ _).
  apply Exists_cons_tl, Exists_cons_hd. reflexivity.
Defined.

(** * Further properties *)

(** ** Filenames *)

Lemma sanitize_length (s : string) :
  String.length (sanitize_filename s) = String.length s.
Proof.
  induction s as [|c s IH]; [reflexivity|].
  rewrite sanitize_cons. cbn [String.length]. now rewrite IH.
Qed.

(** X1: sanitising a filename twice is sanitising it once, and the
    filename is as long as the tag. *)
Theorem sanitize_filename_idempotent (s : string) :
  sanitize_filename (sanitize_filename s) = sanitize_filename s
  /\ String.length (sanitize_filename s) = String.length s.
Proof.
  split.
  - apply sanitize_unchanged; [apply sanitize_no_slash|apply sanitize_no_backslash].
  - apply sanitize_length.
Qed.

(** ** The release filter over pages *)

(** X2: filtering two lists of releases put end to end is filtering each
    and putting the results end to end; it raises when either part does. *)
Theorem filter_production_releases_app (first second : list Release) :
  filter_production_releases (first ++ second)
  = and_then (filter_production_releases first)
      (fun kept_first =>
         and_then (filter_production_releases second)
           (fun kept_second => Ok (kept_first ++ kept_second))).
Proof.
  induction first as [|r first IH].
  - cbn [app filter_production_releases and_then].
    now destruct (filter_production_releases second).
  - cbn [app filter_production_releases]. rewrite IH.
    destruct (keeps r) as [b|e]; [|reflexivity].
    destruct (filter_production_releases first) as [kept_first|e]; [|reflexivity].
    cbn [and_then].
    destruct (filter_production_releases second) as [kept_second|e]; [|reflexivity].
    cbn [and_then]. now destruct b.
Qed.

(** ** Diff text *)

(** X3: the diff text is the fallback exactly when no file of the commit
    has a non-empty patch: a text built from patches never reads as the
    fallback. *)
Theorem diff_text_fallback_iff (commit : Commit) :
  diff_text commit = no_detailed_changes
  <-> List.filter is_patched (files_of commit) = [].
Proof.
  split; [|apply diff_text_unpatched].
  intros Htext.
  destruct (List.filter is_patched (files_of commit)) as [|file rest] eqn:Hfiles;
    [reflexivity|].
  assert (Hne : List.filter is_patched (files_of commit) <> [])
    by (rewrite Hfiles; discriminate).
  rewrite (diff_text_patched commit Hne), Hfiles in Htext.
  cbn [map] in Htext. unfold PyStr.join, diff_entry in Htext.
  destruct (map _ rest); discriminate Htext.
Qed.

(** ** Pagination and fuel *)

Lemma fetch_releases_from_endless (w : World) (repository : string) :
  (forall page,
      status_code (releases_endpoint w repository page) = 200
      /\ json (releases_endpoint w repository page) <> []) ->
  forall fuel page releases,
    fetch_releases_from w fuel repository page releases = None.
Proof.
  intros Hfull. induction fuel as [|fuel IH]; intros page releases; [reflexivity|].
  cbn [fetch_releases_from].
  destruct (Hfull page) as [Hstatus Hjson]. rewrite Hstatus. cbn [Nat.eqb negb].
  destruct (json (releases_endpoint w repository page)); [now elim Hjson|].
  now rewrite IH.
Qed.

(** X4: when every page of releases is answered 200 with at least one
    release, [fetch_releases] never returns: no amount of fuel gives a
    result. *)
Theorem fetch_releases_endless (w : World) (repository : string) :
  (forall page,
      status_code (releases_endpoint w repository page) = 200
      /\ json (releases_endpoint w repository page) <> []) ->
  forall fuel, fetch_releases w fuel repository = None.
Proof.
  intros Hfull fuel. unfold fetch_releases.
  now apply fetch_releases_from_endless.
Qed.

Lemma fetch_releases_from_more_fuel (w : World) (repository : string) :
  forall fuel page releases outcome,
    fetch_releases_from w fuel repository page releases = Some outcome ->
    forall more,
      fetch_releases_from w (fuel + more) repository page releases = Some outcome.
Proof.
  induction fuel as [|fuel IH]; intros page releases outcome Hrun more; [discriminate|].
  cbn [Nat.add fetch_releases_from] in *.
  destruct (negb (Nat.eqb (status_code (releases_endpoint w repository page)) 200));
    [exact Hrun|].
  destruct (json (releases_endpoint w repository page)) as [|r page_releases];
    [exact Hrun|].
  destruct (fetch_releases_from w fuel repository (S page) (releases ++ r :: page_releases))
    as [[t a]|] eqn:Hrest; [|discriminate].
  now rewrite (IH _ _ _ Hrest more).
Qed.

(** A result of [fetch_releases] does not depend on the fuel: once some
    fuel gives a result, every larger fuel gives the same one. *)
Lemma fetch_releases_more_fuel (w : World) (repository : string)
    (fuel more : nat) (outcome : IO (list Release)) :
  fetch_releases w fuel repository = Some outcome ->
  fetch_releases w (fuel + more) repository = Some outcome.
Proof.
  intros Hrun. unfold fetch_releases in *.
  now apply fetch_releases_from_more_fuel.
Qed.

(** ** Traces *)

Lemma writes_app (t t' : list Event) : writes (t ++ t') = writes t ++ writes t'.
Proof. apply flat_map_app. Qed.


Lemma completions_app (t t' : list Event) :
  completions (t ++ t') = completions t ++ completions t'.
Proof. apply flat_map_app. Qed.

Lemma requests_details (repository : string) (commits : list Commit) :
  requests (map (detail_request repository) commits)
  = map (fun commit => commit_url repository (sha commit)) commits.
Proof.
  induction commits as [|commit rest IH]; [reflexivity|].
  cbn [map]. unfold detail_request at 1.
  change (requests (Requested ?u ?p :: ?t)) with (u :: requests t).
  now rewrite IH.
Qed.

Lemma writes_details (repository : string) (commits : list Commit) :
  writes (map (detail_request repository) commits) = [].
Proof. induction commits as [|commit rest IH]; [reflexivity|exact IH]. Qed.

Lemma completions_details (repository : string) (commits : list Commit) :
  completions (map (detail_request repository) commits) = [].
Proof. induction commits as [|commit rest IH]; [reflexivity|exact IH]. Qed.

(** ** Commit range resolution, further *)

Lemma detailed_identity (w : World) (repository : string) (commit : Commit) :
  sha (detailed w repository commit) = sha commit
  /\ message (detailed w repository commit) = message commit
  /\ author_name (detailed w repository commit) = author_name commit.
Proof.
  unfold detailed. destruct (Nat.eqb _ 200); repeat split.
Qed.

Lemma get_commits_between_tags_failed (w : World) (repository base_tag head_tag : string) :
  status_code (compare_endpoint w repository base_tag head_tag) <> 200 ->
  get_commits_between_tags w repository base_tag head_tag
  = ([Requested (compare_url repository base_tag head_tag) [];
      Printed ("Failed to fetch commits between tags: "
                 ++ PyStr.of_nat
                      (status_code (compare_endpoint w repository base_tag head_tag)))],
     Ok []).
Proof.
  intros Hstatus. unfold get_commits_between_tags.
  apply Nat.eqb_neq in Hstatus. now rewrite Hstatus.
Qed.

(** X5: when the compare request succeeds, [get_commits_between_tags]
    makes one request more than there are commits, the compare request first
    and then one per commit in the order of the range, and returns as many
    commits, each with the sha, message and author it came with. *)
Theorem get_commits_between_tags_one_request_per_commit (w : World)
    (repository base_tag head_tag : string) :
  status_code (compare_endpoint w repository base_tag head_tag) = 200 ->
  requests (fst (get_commits_between_tags w repository base_tag head_tag))
  = compare_url repository base_tag head_tag
    :: map (fun commit => commit_url repository (sha commit))
         (json (compare_endpoint w repository base_tag head_tag))
  /\ exists commits,
      snd (get_commits_between_tags w repository base_tag head_tag) = Ok commits
      /\ Forall2 (fun given returned =>
                    sha returned = sha given
                    /\ message returned = message given
                    /\ author_name returned = author_name given)
           (json (compare_endpoint w repository base_tag head_tag)) commits.
Proof.
  intros Hstatus. rewrite (get_commits_between_tags_ok w _ _ _ Hstatus). cbn [fst snd].
  split.
  - change (requests (Requested ?u ?p :: ?t)) with (u :: requests t).
    now rewrite requests_details.
  - eexists. split; [reflexivity|].
    induction (json (compare_endpoint w repository base_tag head_tag)) as [|c l IH];
      cbn [map]; constructor; [apply detailed_identity|exact IH].
Qed.

(** X6: a commit whose single-commit request is answered 200 comes back at
    its position carrying the files of that answer, and no file when the
    answer has no [files] key, in which case its diff text is the
    fallback. *)
Theorem successful_detail_fetch_attached (w : World)
    (repository base_tag head_tag : string) (i : nat) (commit : Commit) :
  status_code (compare_endpoint w repository base_tag head_tag) = 200 ->
  nth_error (json (compare_endpoint w repository base_tag head_tag)) i = Some commit ->
  status_code (commit_endpoint w repository (sha commit)) = 200 ->
  exists commits returned,
    snd (get_commits_between_tags w repository base_tag head_tag) = Ok commits
    /\ nth_error commits i = Some returned
    /\ detailed_diff returned
       = Some match json (commit_endpoint w repository (sha commit)) with
              | Some files => files
              | None => []
              end
    /\ (json (commit_endpoint w repository (sha commit)) = None ->
        diff_text returned = no_detailed_changes).
Proof.
  intros Hcompare Hnth Hstatus.
  rewrite (get_commits_between_tags_ok w _ _ _ Hcompare). cbn [snd].
  exists (map (detailed w repository)
            (json (compare_endpoint w repository base_tag head_tag))),
         (detailed w repository commit).
  split; [reflexivity|]. split.
  - now rewrite nth_error_map, Hnth.
  - unfold detailed. rewrite Hstatus. cbn [Nat.eqb with_detailed_diff detailed_diff].
    split; [reflexivity|].
    intros Hjson. rewrite Hjson. reflexivity.
Qed.

(** ** Sequencing, further *)

Lemma bind_fst {A B : Type} (m : IO A) (k : A -> IO B) :
  fst (bind m k)
  = fst m ++ match snd m with
             | Ok a => fst (k a)
             | Raise _ => []
             end.
Proof.
  destruct m as [t [a|e]]; cbn [bind fst snd].
  - now destruct (k a).
  - now rewrite app_nil_r.
Qed.

Lemma bind_snd {A B : Type} (m : IO A) (k : A -> IO B) :
  snd (bind m k)
  = match snd m with
    | Ok a => snd (k a)
    | Raise e => Raise e
    end.
Proof.
  destruct m as [t [a|e]]; cbn [bind fst snd]; [|reflexivity].
  now destruct (k a).
Qed.

Lemma complete_spec (w : World) (messages : list Message) :
  complete w messages = ([Completed messages], completion_content w messages).
Proof.
  unfold complete, bind, emit, lift.
  destruct (completion_content w messages); reflexivity.
Qed.

(** ** Summaries in order *)

Section Summaries.

Variable w : World.

Lemma summarize_commits_cons_ok (total i : nat) (commit : Commit) (rest : list Commit)
    (text : string) :
  completion_content w (commit_messages commit) = Ok text ->
  summarize_commits w total i (commit :: rest)
  = (Printed ("Processing commit " ++ PyStr.of_nat i ++ "/" ++ PyStr.of_nat total)
       :: Completed (commit_messages commit)
       :: fst (summarize_commits w total (S i) rest),
     match snd (summarize_commits w total (S i) rest) with
     | Ok summaries => Ok (text :: summaries)
     | Raise e => Raise e
     end).
Proof.
  intros Htext. cbn [summarize_commits].
  rewrite summarize_commit_spec, Htext.
  destruct (summarize_commits w total (S i) rest) as [t [summaries|e]];
    unfold bind, emit, ret; cbn [fst snd app]; rewrite ?app_nil_r; reflexivity.
Qed.

Lemma summarize_commits_cons_raise (total i : nat) (commit : Commit) (rest : list Commit)
    (e : Exc) :
  completion_content w (commit_messages commit) = Raise e ->
  summarize_commits w total i (commit :: rest)
  = ([Printed ("Processing commit " ++ PyStr.of_nat i ++ "/" ++ PyStr.of_nat total);
      Completed (commit_messages commit)],
     Raise e).
Proof.
  intros Hraise. cbn [summarize_commits].
  rewrite summarize_commit_spec, Hraise. reflexivity.
Qed.

Lemma summarize_commits_all (commits : list Commit) :
  Forall (summarised w) commits ->
  forall total i,
    snd (summarize_commits w total i commits) = Ok (map (summary_text w) commits)
    /\ completions (fst (summarize_commits w total i commits))
       = map commit_messages commits.
Proof.
  induction 1 as [|commit rest [text Htext] _ IH]; intros total i; [now split|].
  rewrite (summarize_commits_cons_ok total i commit rest text Htext). cbn [fst snd].
  destruct (IH total (S i)) as [Hsnd Hfst]. rewrite Hsnd. split.
  - assert (Hs : summary_text w commit = text)
      by (unfold summary_text; now rewrite Htext).
    cbn [map]. now rewrite Hs.
  - change (completions (Printed ?p :: Completed ?m :: ?t)) with (m :: completions t).
    now rewrite Hfst.
Qed.

Lemma summarize_commits_until (before : list Commit) (commit : Commit)
    (rest : list Commit) (e : Exc) :
  Forall (summarised w) before ->
  completion_content w (commit_messages commit) = Raise e ->
  forall total i,
    snd (summarize_commits w total i (before ++ commit :: rest)) = Raise e
    /\ completions (fst (summarize_commits w total i (before ++ commit :: rest)))
       = map commit_messages (before ++ [commit]).
Proof.
  intros Hbefore Hraise.
  induction Hbefore as [|c before [text Htext] _ IH]; intros total i.
  - cbn [app]. rewrite (summarize_commits_cons_raise total i commit rest e Hraise).
    now split.
  - cbn [app]. rewrite (summarize_commits_cons_ok total i c _ text Htext). cbn [fst snd].
    destruct (IH total (S i)) as [Hsnd Hfst]. rewrite Hsnd. split; [reflexivity|].
    change (completions (Printed ?p :: Completed ?m :: ?t)) with (m :: completions t).
    now rewrite Hfst.
Qed.

Lemma summarize_commits_quiet (commits : list Commit) :
  forall total i,
    writes (fst (summarize_commits w total i commits)) = []
    /\ requests (fst (summarize_commits w total i commits)) = [].
Proof.
  induction commits as [|commit rest IH]; intros total i; [now split|].
  destruct (completion_content w (commit_messages commit)) as [text|e] eqn:Hc.
  - rewrite (summarize_commits_cons_ok total i commit rest text Hc). cbn [fst].
    exact (IH total (S i)).
  - rewrite (summarize_commits_cons_raise total i commit rest e Hc). now split.
Qed.

Lemma get_commits_between_tags_quiet (repository base_tag head_tag : string) :
  writes (fst (get_commits_between_tags w repository base_tag head_tag)) = []
  /\ completions (fst (get_commits_between_tags w repository base_tag head_tag)) = [].
Proof.
  destruct (Nat.eq_dec (status_code (compare_endpoint w repository base_tag head_tag)) 200)
    as [Hok|Hfailed].
  - rewrite (get_commits_between_tags_ok w _ _ _ Hok). cbn [fst].
    split.
    + exact (writes_details repository _).
    + exact (completions_details repository _).
  - rewrite (get_commits_between_tags_failed w _ _ _ Hfailed). now split.
Qed.

(** [generate_release_changelog] once the range is known. *)
Lemma generate_release_changelog_unfold (repository : string) (current_release : Release)
    (previous_tag : option string) (commits : list Commit) :
  snd (get_commits_between_tags w repository (fmt previous_tag)
         (fmt (tag_name current_release))) = Ok commits ->
  generate_release_changelog w repository current_release previous_tag
  = (fst (get_commits_between_tags w repository (fmt previous_tag)
            (fmt (tag_name current_release)))
       ++ Printed (PyStr.nl ++ "Analyzing " ++ PyStr.of_nat (List.length commits)
                     ++ " commits...")
       :: fst (summarize_commits w (List.length commits) 1 commits)
       ++ match snd (summarize_commits w (List.length commits) 1 commits) with
          | Ok commit_summaries => [Completed (changelog_messages commit_summaries)]
          | Raise _ => []
          end,
     match snd (summarize_commits w (List.length commits) 1 commits) with
     | Ok commit_summaries => completion_content w (changelog_messages commit_summaries)
     | Raise e => Raise e
     end).
Proof.
  unfold generate_release_changelog.
  destruct (get_commits_between_tags _ _ _ _) as [t r]. cbn [fst snd]. intros ->.
  destruct (summarize_commits w (List.length commits) 1 commits)
    as [t' [commit_summaries|e]] eqn:Hsum.
  - cbv beta iota delta [bind emit]. rewrite Hsum, complete_spec. reflexivity.
  - cbv beta iota delta [bind emit]. rewrite Hsum. cbn [fst snd app].
    now rewrite app_nil_r.
Qed.

End Summaries.

(** X7: when the completion service gives a text for every commit of the
    range, [generate_release_changelog] asks for one summary per commit, in
    the order of the range, and then once for the changelog, with the
    summaries joined by newlines in that same order; what it returns is the
    outcome of that last call. *)
Theorem summaries_keep_commit_order (w : World) (repository : string)
    (current_release : Release) (previous_tag : option string) (commits : list Commit) :
  snd (get_commits_between_tags w repository (fmt previous_tag)
         (fmt (tag_name current_release))) = Ok commits ->
  Forall (summarised w) commits ->
  completions (fst (generate_release_changelog w repository current_release previous_tag))
  = map commit_messages commits
    ++ [ [ {| role := "system"; content := changelog_system_prompt |};
           {| role := "user";
              content := PyStr.join PyStr.nl (map (summary_text w) commits) |} ] ]
  /\ snd (generate_release_changelog w repository current_release previous_tag)
     = completion_content w (changelog_messages (map (summary_text w) commits)).
Proof.
  intros Hrange Hall.
  rewrite (generate_release_changelog_unfold w _ _ _ commits Hrange). cbn [fst snd].
  destruct (summarize_commits_all w commits Hall (List.length commits) 1) as [Hsnd Hfst].
  rewrite Hsnd. split; [|reflexivity].
  rewrite completions_app.
  rewrite (proj2 (get_commits_between_tags_quiet w repository _ _)).
  change (completions (Printed ?p :: ?t)) with (completions t).
  rewrite completions_app, Hfst. reflexivity.
Qed.

(** X8: when the completion service raises on a commit of the range, having
    given a text for the commits before it, [generate_release_changelog]
    raises that exception: the commits after it are not summarised and the
    changelog is never asked for. *)
Theorem failed_summary_aborts (w : World) (repository : string)
    (current_release : Release) (previous_tag : option string)
    (before : list Commit) (commit : Commit) (rest : list Commit) (e : Exc) :
  snd (get_commits_between_tags w repository (fmt previous_tag)
         (fmt (tag_name current_release))) = Ok (before ++ commit :: rest) ->
  Forall (summarised w) before ->
  completion_content w (commit_messages commit) = Raise e ->
  snd (generate_release_changelog w repository current_release previous_tag) = Raise e
  /\ completions (fst (generate_release_changelog w repository current_release
                         previous_tag))
     = map commit_messages (before ++ [commit]).
Proof.
  intros Hrange Hbefore Hraise.
  rewrite (generate_release_changelog_unfold w _ _ _ _ Hrange). cbn [fst snd].
  destruct (summarize_commits_until w before commit rest e Hbefore Hraise
              (List.length (before ++ commit :: rest)) 1) as [Hsnd Hfst].
  rewrite Hsnd. split; [reflexivity|].
  rewrite completions_app.
  rewrite (proj2 (get_commits_between_tags_quiet w repository _ _)).
  change (completions (Printed ?p :: ?t)) with (completions t).
  rewrite completions_app, Hfst. cbn [completions flat_map]. now rewrite app_nil_r.
Qed.

Lemma get_commits_between_tags_returns (w : World) (repository base_tag head_tag : string) :
  exists commits,
    snd (get_commits_between_tags w repository base_tag head_tag) = Ok commits.
Proof.
  destruct (Nat.eq_dec (status_code (compare_endpoint w repository base_tag head_tag)) 200)
    as [Hok|Hfailed].
  - rewrite (get_commits_between_tags_ok w _ _ _ Hok). now eexists.
  - rewrite (get_commits_between_tags_failed w _ _ _ Hfailed). now eexists.
Qed.

(** Generating a changelog writes no file. *)
Lemma generate_release_changelog_writes (w : World) (repository : string)
    (current_release : Release) (previous_tag : option string) :
  writes (fst (generate_release_changelog w repository current_release previous_tag)) = [].
Proof.
  destruct (get_commits_between_tags_returns w repository (fmt previous_tag)
              (fmt (tag_name current_release))) as [commits Hrange].
  rewrite (generate_release_changelog_unfold w _ _ _ commits Hrange). cbn [fst].
  rewrite writes_app, (proj1 (get_commits_between_tags_quiet w repository _ _)).
  change (writes (Printed ?p :: ?t)) with (writes t).
  rewrite writes_app, (proj1 (summarize_commits_quiet w commits _ _)).
  now destruct (snd (summarize_commits w (List.length commits) 1 commits)).
Qed.

(** X9: when the compare request is answered with a status other than
    200, the failure is printed and the changelog is still generated, from no
    commit: no commit is requested, the only completion call is the
    consolidating one with an empty user message, and a text it returns is
    saved as the changelog of the release, when the output directory can be
    made and the file opened. *)
Theorem failed_compare_still_saves (w : World) (repository : string)
    (current_release : Release) (previous_tag : option string) (tag text : string) :
  status_code (compare_endpoint w repository (fmt previous_tag)
                 (fmt (tag_name current_release))) <> 200 ->
  tag_name current_release = Some tag ->
  completion_content w (changelog_messages []) = Ok text ->
  makedirs_result w "changelogs" = Ok tt ->
  open_result w (changelog_path (sanitize_filename tag)) = Ok tt ->
  requests (fst (generate_release_changelog w repository current_release previous_tag))
  = [compare_url repository (fmt previous_tag) tag]
  /\ completions (fst (generate_release_changelog w repository current_release
                         previous_tag))
     = [changelog_messages []]
  /\ writes (fst (changelog <- generate_release_changelog w repository current_release
                                 previous_tag ;;
                  save_changelog w current_release changelog))
     = [(changelog_path (sanitize_filename tag), changelog_file current_release text)].
Proof.
  intros Hstatus Htag Htext Hdirs Hopen.
  pose proof (get_commits_between_tags_failed w repository _ _ Hstatus) as Hfailed.
  assert (Hrange : snd (get_commits_between_tags w repository (fmt previous_tag)
                          (fmt (tag_name current_release))) = Ok [])
    by now rewrite Hfailed.
  pose proof (generate_release_changelog_empty w repository current_release
                previous_tag Hrange) as Hgen.
  rewrite Hfailed in Hgen. cbn [fst app] in Hgen.
  rewrite Hgen, Htext. cbn [fst]. split; [|split].
  - rewrite Htag. reflexivity.
  - reflexivity.
  - cbv beta iota delta [bind].
    rewrite (save_changelog_tagged w current_release tag text Htag Hdirs Hopen).
    reflexivity.
Qed.

(** ** The rounds of single-release mode *)



Section SingleReleaseRounds.

Variable w : World.
Variable repository : string.
Variable production_releases : list Release.

(** The round of a selection in range whose next release has a tag. *)
Lemma process_release_generates (selection : string) (i : nat)
    (release previous : Release) (t : string) :
  int_of w selection = Some (Z.of_nat i + 1)%Z ->
  nth_error production_releases i = Some release ->
  nth_error production_releases (S i) = Some previous ->
  tag_name previous = Some t ->
  t <> "" ->
  process_release w repository production_releases selection
  = (Printed (PyStr.nl ++ "Processing release: " ++ fmt (tag_name release))
       :: fst (generate_release_changelog w repository release (Some t))
       ++ match snd (generate_release_changelog w repository release (Some t)) with
          | Ok changelog => fst (save_changelog w release changelog)
          | Raise _ => []
          end,
     match snd (generate_release_changelog w repository release (Some t)) with
     | Ok changelog => snd (save_changelog w release changelog)
     | Raise e => Raise e
     end).
Proof.
  intros Hparse Hnth Hnext Htag Ht.
  rewrite (process_release_in_range w repository production_releases
             selection i release Hparse Hnth).
  rewrite (changelog_since_previous_some w repository production_releases
             i release previous t Hnext Htag Ht).
  rewrite bind_emit, bind_fst, bind_snd. reflexivity.
Qed.

End SingleReleaseRounds.


(** X22: in single-release mode, when the changelog is generated and the
    directory made but the file cannot be opened, as with a tag too long for
    a file name, nothing is written: the round ends with the report of the
    exception raised by [open], with no notice of a saved changelog. *)
Theorem unopened_changelog_is_reported (w : World) (repository : string)
    (production_releases : list Release) (selection : string) (i : nat)
    (release previous : Release) (t tag changelog : string) (e : Exc) :
  int_of w selection = Some (Z.of_nat i + 1)%Z ->
  nth_error production_releases i = Some release ->
  nth_error production_releases (S i) = Some previous ->
  tag_name previous = Some t ->
  t <> "" ->
  tag_name release = Some tag ->
  snd (generate_release_changelog w repository release (Some t)) = Ok changelog ->
  makedirs_result w "changelogs" = Ok tt ->
  open_result w (changelog_path (sanitize_filename tag)) = Raise e ->
  writes (reported "release" (process_release w repository production_releases selection))
  = []
  /\ exists trace,
      reported "release" (process_release w repository production_releases selection)
      = trace ++ [MadeDirs "changelogs";
                  Printed (if is_value_error e then invalid_input_notice
                           else "Error processing release: " ++ exc_text e)].
Proof.
  intros Hparse Hnth Hnext Hprev Ht Htag Hgen Hdirs Hopen.
  rewrite (process_release_generates w repository production_releases selection i
             release previous t Hparse Hnth Hnext Hprev Ht).
  rewrite Hgen, (save_changelog_unopened w release tag changelog e Htag Hdirs Hopen).
  cbn [fst snd reported]. split.
  - rewrite writes_app.
    change (writes (Printed ?p :: ?rest)) with (writes rest).
    rewrite writes_app, generate_release_changelog_writes. reflexivity.
  - exists (Printed (PyStr.nl ++ "Processing release: " ++ fmt (tag_name release))
            :: fst (generate_release_changelog w repository release (Some t))
            ++ [Printed (PyStr.nl ++ "Changelog:"); PrintedMarkdown changelog]).
    cbn [app]. rewrite <- !app_assoc. reflexivity.
Qed.

(** X11: in single-release mode, an exception raised while the changelog is
    generated ends the round and not the loop: the round writes no file, its
    last event is the report of the exception, and the loop goes on with the
    next line.  A [ValueError] is reported as an invalid input, any other
    exception with its message. *)
Theorem failed_generation_is_reported (w : World) (repository : string)
    (production_releases : list Release) (selection : string) (i : nat)
    (release previous : Release) (t : string) (e : Exc) :
  int_of w selection = Some (Z.of_nat i + 1)%Z ->
  nth_error production_releases i = Some release ->
  nth_error production_releases (S i) = Some previous ->
  tag_name previous = Some t ->
  t <> "" ->
  snd (generate_release_changelog w repository release (Some t)) = Raise e ->
  (PyStr.lower selection =? "q")%string = false ->
  single_release_round w repository production_releases selection
  = (Prompted release_prompt
       :: Printed (PyStr.nl ++ "Processing release: " ++ fmt (tag_name release))
       :: fst (generate_release_changelog w repository release (Some t))
       ++ [Printed (if is_value_error e then invalid_input_notice
                    else "Error processing release: " ++ exc_text e)],
     Continue)
  /\ writes (fst (single_release_round w repository production_releases selection)) = []
  /\ forall fuel line,
      typed w line = selection ->
      single_release_mode w repository production_releases (S fuel) line
      = option_map (app (fst (single_release_round w repository production_releases
                                selection)))
          (single_release_mode w repository production_releases fuel (S line)).
Proof.
  intros Hparse Hnth Hnext Hprev Ht Hgen Hquit.
  assert (Hround :
            single_release_round w repository production_releases selection
            = (Prompted release_prompt
                 :: Printed (PyStr.nl ++ "Processing release: " ++ fmt (tag_name release))
                 :: fst (generate_release_changelog w repository release (Some t))
                 ++ [Printed (if is_value_error e then invalid_input_notice
                              else "Error processing release: " ++ exc_text e)],
               Continue)).
  { unfold single_release_round. rewrite Hquit.
    rewrite (process_release_generates w repository production_releases selection i
               release previous t Hparse Hnth Hnext Hprev Ht).
    rewrite Hgen. cbn [reported]. now rewrite app_nil_r. }
  split; [exact Hround|]. split.
  - rewrite Hround. cbn [fst].
    change (writes (Prompted ?p :: Printed ?q :: ?rest)) with (writes rest).
    rewrite writes_app, generate_release_changelog_writes. reflexivity.
  - intros fuel line Hline. cbn [single_release_mode].
    rewrite Hline, Hround. reflexivity.
Qed.

(** X12: a number outside 1 .. the count of production releases, zero and
    the negative numbers included, selects nothing: the round prints the
    notice of an invalid selection and does nothing else. *)
Theorem out_of_range_selection_refused (w : World) (repository : string)
    (production_releases : list Release) (selection : string) (n : Z) :
  int_of w selection = Some n ->
  (n < 1 \/ Z.of_nat (List.length production_releases) < n)%Z ->
  process_release w repository production_releases selection
  = ([Printed invalid_selection_notice], Ok tt).
Proof.
  intros Hparse Hout. unfold process_release.
  rewrite (index_of_parsed w selection n Hparse), bind_ret.
  assert (Hrange : in_range production_releases (n - 1) = false).
  { unfold in_range. apply andb_false_iff.
    destruct Hout as [Hlow|Hhigh]; [left; apply Z.leb_gt|right; apply Z.ltb_ge]; lia. }
  now rewrite Hrange.
Qed.

(** X13: a line that is neither the quit signal nor a number is answered
    with the notice of an invalid input and the loop goes on: no release is
    processed. *)
Theorem non_numeric_selection_refused (w : World) (repository : string)
    (production_releases : list Release) (selection : string) :
  int_of w selection = None ->
  (PyStr.lower selection =? "q")%string = false ->
  single_release_round w repository production_releases selection
  = ([Prompted release_prompt; Printed invalid_input_notice], Continue)
  /\ forall fuel line,
      typed w line = selection ->
      single_release_mode w repository production_releases (S fuel) line
      = option_map (app [Prompted release_prompt; Printed invalid_input_notice])
          (single_release_mode w repository production_releases fuel (S line)).
Proof.
  intros Hparse Hquit.
  assert (Hround :
            single_release_round w repository production_releases selection
            = ([Prompted release_prompt; Printed invalid_input_notice], Continue)).
  { unfold single_release_round, process_release, index_of.
    rewrite Hquit, Hparse. reflexivity. }
  split; [exact Hround|].
  intros fuel line Hline. cbn [single_release_mode]. now rewrite Hline, Hround.
Qed.

Lemma single_release_mode_quit (w : World) (repository : string)
    (production_releases : list Release) (fuel line : nat) :
  PyStr.lower (typed w line) = "q" ->
  single_release_mode w repository production_releases (S fuel) line
  = Some [Prompted release_prompt].
Proof.
  intros Hquit. cbn [single_release_mode]. unfold single_release_round.
  apply String.eqb_eq in Hquit. now rewrite Hquit.
Qed.

Lemma single_release_mode_continue (w : World) (repository : string)
    (production_releases : list Release) (fuel line : nat) :
  (PyStr.lower (typed w line) =? "q")%string = false ->
  single_release_mode w repository production_releases (S fuel) line
  = option_map
      (app (Prompted release_prompt
              :: reported "release"
                   (process_release w repository production_releases (typed w line))))
      (single_release_mode w repository production_releases fuel (S line)).
Proof.
  intros Hquit. cbn [single_release_mode]. unfold single_release_round.
  now rewrite Hquit.
Qed.

(** X14: single-release mode ends exactly when the user types the quit
    signal, in either letter case, at one of the prompts: whatever the rounds
    before it did, enough fuel then gives the trace of the session, and
    without such a line no fuel does. *)
Theorem single_release_mode_ends_on_quit (w : World) (repository : string)
    (production_releases : list Release) (line : nat) :
  (exists k, PyStr.lower (typed w (line + k)) = "q")
  <-> (exists fuel t,
          single_release_mode w repository production_releases fuel line = Some t).
Proof.
  split.
  - intros [k Hk]. revert line Hk. induction k as [|k IH]; intros line Hk.
    + rewrite Nat.add_0_r in Hk. exists 1. eexists.
      now apply single_release_mode_quit.
    + destruct (PyStr.lower (typed w line) =? "q")%string eqn:Hquit.
      * apply String.eqb_eq in Hquit. exists 1. eexists.
        now apply single_release_mode_quit.
      * rewrite Nat.add_succ_r in Hk. destruct (IH (S line) Hk) as (fuel & t & Hrun).
        exists (S fuel). eexists.
        rewrite (single_release_mode_continue w _ _ fuel line Hquit), Hrun.
        reflexivity.
  - intros (fuel & t & Hrun). revert line t Hrun.
    induction fuel as [|fuel IH]; intros line t Hrun; [discriminate|].
    destruct (PyStr.lower (typed w line) =? "q")%string eqn:Hquit.
    + apply String.eqb_eq in Hquit. exists 0. now rewrite Nat.add_0_r.
    + rewrite (single_release_mode_continue w _ _ fuel line Hquit) in Hrun.
      destruct (single_release_mode w repository production_releases fuel (S line))
        as [t'|] eqn:Hrest; [|discriminate].
      destruct (IH (S line) t' Hrest) as [k Hk].
      exists (S k). now rewrite Nat.add_succ_r.
Qed.

(** ** The rounds of compare mode *)


Lemma save_comparison_unopened (w : World) (older newer : Release)
    (older_tag newer_tag changelog : string) (e : Exc) :
  tag_name older = Some older_tag ->
  tag_name newer = Some newer_tag ->
  makedirs_result w "changelogs" = Ok tt ->
  open_result w (comparison_path (sanitize_filename older_tag)
                   (sanitize_filename newer_tag)) = Raise e ->
  save_comparison w older newer changelog
  = ([Printed (PyStr.nl ++ "Changelog:");
      PrintedMarkdown changelog;
      MadeDirs "changelogs"],
     Raise e).
Proof.
  intros Holder Hnewer Hdirs Hopen. unfold save_comparison, makedirs, write_file.
  rewrite Holder, Hnewer, Hdirs. cbn [sanitize_filename_of].
  rewrite !bind_lift_ok, Hopen. cbv [bind emit raise app]. reflexivity.
Qed.

Lemma process_comparison_in_order (w : World) (repository : string)
    (production_releases : list Release) (newer_release older_release : string)
    (i j : nat) (newer older : Release) :
  int_of w newer_release = Some (Z.of_nat i + 1)%Z ->
  int_of w older_release = Some (Z.of_nat j + 1)%Z ->
  i < j ->
  nth_error production_releases i = Some newer ->
  nth_error production_releases j = Some older ->
  process_comparison w repository production_releases newer_release older_release
  = changelog_between w repository newer older.
Proof.
  intros Hnewer Holder Horder Hi Hj. unfold process_comparison.
  rewrite (index_of_parsed w newer_release _ Hnewer), bind_ret.
  rewrite (index_of_parsed w older_release _ Holder), bind_ret.
  replace (Z.of_nat i + 1 - 1)%Z with (Z.of_nat i) by lia.
  replace (Z.of_nat j + 1 - 1)%Z with (Z.of_nat j) by lia.
  assert (Hi' : i < List.length production_releases)
    by (apply nth_error_Some; congruence).
  assert (Hj' : j < List.length production_releases)
    by (apply nth_error_Some; congruence).
  rewrite (in_range_nat production_releases i Hi'), (in_range_nat production_releases j Hj').
  cbn [andb].
  assert (Hgeb : (Z.of_nat i >=? Z.of_nat j)%Z = false).
  { rewrite Z.geb_leb. apply Z.leb_gt. lia. }
  rewrite Hgeb.
  now rewrite (list_get_nat production_releases i newer Hi), bind_lift_ok,
              (list_get_nat production_releases j older Hj), bind_lift_ok.
Qed.


(** X23: in compare mode, when the changelog is generated and the
    directory made but the file cannot be opened, nothing is written: the
    round ends with the report of the exception raised by [open], with no
    notice of a saved changelog. *)
Theorem unopened_comparison_is_reported (w : World) (repository : string)
    (production_releases : list Release) (newer_release older_release : string)
    (i j : nat) (newer older : Release) (newer_tag older_tag changelog : string)
    (e : Exc) :
  int_of w newer_release = Some (Z.of_nat i + 1)%Z ->
  int_of w older_release = Some (Z.of_nat j + 1)%Z ->
  i < j ->
  nth_error production_releases i = Some newer ->
  nth_error production_releases j = Some older ->
  tag_name newer = Some newer_tag ->
  tag_name older = Some older_tag ->
  snd (generate_release_changelog w repository newer (Some older_tag)) = Ok changelog ->
  makedirs_result w "changelogs" = Ok tt ->
  open_result w (comparison_path (sanitize_filename older_tag)
                   (sanitize_filename newer_tag)) = Raise e ->
  writes (reported "comparison"
            (process_comparison w repository production_releases
               newer_release older_release))
  = []
  /\ exists trace,
      reported "comparison"
        (process_comparison w repository production_releases
           newer_release older_release)
      = trace ++ [MadeDirs "changelogs";
                  Printed (if is_value_error e then invalid_input_notice
                           else "Error processing comparison: " ++ exc_text e)].
Proof.
  intros Hnewer Holder Horder Hi Hj Hntag Hotag Hgen Hdirs Hopen.
  rewrite (process_comparison_in_order w repository production_releases
             newer_release older_release i j newer older Hnewer Holder Horder Hi Hj).
  unfold changelog_between. rewrite !bind_emit. cbn [fst snd].
  rewrite Hotag, bind_fst, bind_snd, Hgen.
  rewrite (save_comparison_unopened w older newer older_tag newer_tag changelog e
             Hotag Hntag Hdirs Hopen).
  cbn [fst snd reported]. split.
  - rewrite writes_app.
    change (writes (Printed ?a :: Printed ?b :: Printed ?c :: ?rest)) with (writes rest).
    rewrite writes_app, generate_release_changelog_writes. reflexivity.
  - exists (Printed (PyStr.nl ++ "Comparing changes between:")
            :: Printed ("Newer: " ++ fmt (tag_name newer))
            :: Printed ("Older: " ++ fmt (Some older_tag))
            :: fst (generate_release_changelog w repository newer (Some older_tag))
            ++ [Printed (PyStr.nl ++ "Changelog:"); PrintedMarkdown changelog]).
    cbn [app]. rewrite <- !app_assoc. reflexivity.
Qed.


(** ** The entry point *)

Lemma fetch_releases_failed_page (w : World) (repository : string)
    (pages : list (list Release)) (fuel : nat) :
  Forall (fun p => p <> []) pages ->
  (forall i, i < List.length pages ->
             releases_endpoint w repository (S i)
             = {| status_code := 200; json := nth i pages [] |}) ->
  List.length pages < fuel ->
  status_code (releases_endpoint w repository (S (List.length pages))) <> 200 ->
  fetch_releases w fuel repository
  = Some (map (page_request repository) (seq 1 (List.length pages))
            ++ [page_request repository (S (List.length pages));
                Printed ("Failed to fetch releases: "
                           ++ PyStr.of_nat
                                (status_code
                                   (releases_endpoint w repository
                                      (S (List.length pages)))))],
          Ok []).
Proof.
  intros Hfull Hpages Hfuel Hstatus.
  assert (Hsplit : fuel = List.length pages + S (fuel - S (List.length pages))) by lia.
  unfold fetch_releases. rewrite Hsplit.
  rewrite (fetch_releases_from_pages w repository pages _ 1 [] Hfull Hpages).
  now rewrite (fetch_releases_from_failure w repository _ _ _ Hstatus).
Qed.

(** X17: when a page of releases is answered with a status other than 200,
    after however many good pages, [main] prints the failure and then that no
    releases were found, and returns: the releases fetched so far are not
    filtered and no mode is asked for. *)
Theorem main_reports_no_releases_on_failure (w : World)
    (date_of : string -> result string) (pages : list (list Release)) (fuel : nat) :
  Forall (fun p => p <> []) pages ->
  (forall i, i < List.length pages ->
             releases_endpoint w (typed w 0) (S i)
             = {| status_code := 200; json := nth i pages [] |}) ->
  List.length pages < fuel ->
  status_code (releases_endpoint w (typed w 0) (S (List.length pages))) <> 200 ->
  main w date_of fuel
  = Some ([repository_prompt; Printed "Fetching releases..."]
            ++ map (page_request (typed w 0)) (seq 1 (S (List.length pages)))
            ++ [Printed ("Failed to fetch releases: "
                           ++ PyStr.of_nat
                                (status_code
                                   (releases_endpoint w (typed w 0)
                                      (S (List.length pages)))));
                Printed "No releases found."],
          Ok tt).
Proof.
  intros Hfull Hpages Hfuel Hstatus. unfold main.
  rewrite (fetch_releases_failed_page w (typed w 0) pages fuel Hfull Hpages Hfuel Hstatus).
  rewrite seq_S, map_app. cbn [map Nat.add].
  rewrite <- !app_assoc. reflexivity.
Qed.

(** X18: one release without a tag among the releases fetched ends [main]
    with the [AttributeError] of the filter, which nothing catches: no menu is
    shown and no mode is asked for. *)
Theorem main_raises_on_untagged_release (w : World)
    (date_of : string -> result string) (fuel : nat) (fetched : list Event)
    (releases : list Release) :
  fetch_releases w fuel (typed w 0) = Some (fetched, Ok releases) ->
  Exists (fun r => tag_name r = None) releases ->
  main w date_of fuel
  = Some ([repository_prompt; Printed "Fetching releases..."] ++ fetched,
          Raise (none_has_no_attribute "lower")).
Proof.
  intros Hfetch Huntagged. unfold main. rewrite Hfetch.
  rewrite (filter_untagged releases Huntagged).
  destruct releases; [inversion Huntagged|reflexivity].
Qed.

Lemma filter_none_kept (releases : list Release) :
  Forall (fun r => tag_name r <> None /\ is_production r = false) releases ->
  filter_production_releases releases = Ok [].
Proof.
  induction 1 as [|r rest [Htagged Hdropped] _ IH]; [reflexivity|].
  destruct (tag_name r) as [tag|] eqn:Htag; [|congruence].
  cbn [filter_production_releases].
  now rewrite (keeps_tagged r tag Htag), IH, Hdropped.
Qed.

(** X19: when releases were fetched and none of them mentions the marker,
    [main] says that no production releases were found and returns without
    asking for a mode. *)
Theorem main_without_production_releases (w : World)
    (date_of : string -> result string) (fuel : nat) (fetched : list Event)
    (releases : list Release) :
  fetch_releases w fuel (typed w 0) = Some (fetched, Ok releases) ->
  releases <> [] ->
  Forall (fun r => tag_name r <> None /\ is_production r = false) releases ->
  main w date_of fuel
  = Some ([repository_prompt; Printed "Fetching releases..."] ++ fetched
            ++ [Printed "No production releases found."],
          Ok tt).
Proof.
  intros Hfetch Hsome Hnone. unfold main. rewrite Hfetch.
  rewrite (filter_none_kept releases Hnone).
  destruct releases; [now elim Hsome|reflexivity].
Qed.

Lemma list_releases_until (date_of : string -> result string)
    (before : list Release) (release : Release) (rest : list Release) (e : Exc) :
  Forall (fun r => exists d, date_of (published_at r) = Ok d) before ->
  date_of (published_at release) = Raise e ->
  forall i,
    snd (list_releases date_of i (before ++ release :: rest)) = Raise e
    /\ List.length (fst (list_releases date_of i (before ++ release :: rest)))
       = List.length before.
Proof.
  intros Hbefore Hraise.
  induction Hbefore as [|r before [d Hd] _ IH]; intros i.
  - cbn [app list_releases]. rewrite Hraise. now split.
  - cbn [app list_releases]. rewrite Hd, bind_lift_ok, bind_emit. cbn [fst snd].
    destruct (IH (S i)) as [Hsnd Hlen]. split; [exact Hsnd|].
    cbn [List.length]. now rewrite Hlen.
Qed.

(** X20: a production release whose [published_at] is not of the expected
    shape ends [main] with the [ValueError] of the date conversion, which
    nothing catches: the releases before it are listed and no selection is
    asked for. *)
Theorem main_raises_on_malformed_date (w : World)
    (date_of : string -> result string) (fuel : nat) (repository : string)
    (before : list Release) (release : Release) (rest : list Release) (e : Exc) :
  (strip (typed w 1) = "1" \/ strip (typed w 1) = "2") ->
  Forall (fun r => exists d, date_of (published_at r) = Ok d) before ->
  date_of (published_at release) = Raise e ->
  exists listed,
    select_mode w date_of fuel repository (before ++ release :: rest)
    = Some (mode_menu (List.length (before ++ release :: rest)) ++ listed, Raise e)
    /\ List.length listed = List.length before.
Proof.
  intros Hmode Hbefore Hraise.
  destruct (list_releases_until date_of before release rest e Hbefore Hraise 1)
    as [Hsnd Hlen].
  exists (fst (list_releases date_of 1 (before ++ release :: rest))).
  split; [|exact Hlen].
  unfold select_mode.
  assert (Hvalid : negb ((strip (typed w 1) =? "1")%string
                         || (strip (typed w 1) =? "2")%string) = false).
  { destruct Hmode as [-> | ->]; reflexivity. }
  rewrite Hvalid.
  destruct (list_releases date_of 1 (before ++ release :: rest)) as [listed r].
  cbn [fst snd] in *. now rewrite Hsnd.
Qed.

(** ** The commit review helpers *)

(** X21: in the review loop of [repo.py], a commit whose request is
    answered with a status other than 200 makes [get_commit_diff] print the
    failure and return [None], on which the join of the patches raises: the
    round ends with that exception and no summary is asked for. *)
Theorem review_of_failed_fetch_raises (w : World) (repository commit_sha : string) :
  status_code (commit_endpoint w repository commit_sha) <> 200 ->
  Repo.get_commit_diff w repository commit_sha
  = ([Requested (commit_url repository commit_sha) [];
      Printed ("Failed to fetch commit diff: "
                 ++ PyStr.of_nat (status_code (commit_endpoint w repository commit_sha)))],
     Ok None)
  /\ snd (Repo.review_commit w repository commit_sha) = Raise Repo.none_not_iterable
  /\ completions (fst (Repo.review_commit w repository commit_sha)) = [].
Proof.
  intros Hstatus. apply Nat.eqb_neq in Hstatus.
  assert (Hdiff :
            Repo.get_commit_diff w repository commit_sha
            = ([Requested (commit_url repository commit_sha) [];
                Printed ("Failed to fetch commit diff: "
                           ++ PyStr.of_nat
                                (status_code (commit_endpoint w repository commit_sha)))],
               Ok None)).
  { unfold Repo.get_commit_diff. now rewrite Hstatus. }
  split; [exact Hdiff|].
  unfold Repo.review_commit. rewrite Hdiff. now split.
Qed.

(** ** The further properties on the sample data *)

Lemma fetch_releases_endless_sample :
  fetch_releases endless_world 50 sample_repository = None.
Proof.
  refine (fetch_releases_endless endless_world sample_repository _ 50).
  intros page. split; [reflexivity|discriminate].
Defined.

Lemma get_commits_between_tags_one_request_per_commit_sample :
  requests (fst (get_commits_between_tags sample_world sample_repository
                   "v1.0-production" "v2.0-production"))
  = [ compare_url sample_repository "v1.0-production" "v2.0-production";
      commit_url sample_repository "abc123" ].
Proof.
  exact (proj1 (get_commits_between_tags_one_request_per_commit sample_world
                  sample_repository "v1.0-production" "v2.0-production" eq_refl)).
Defined.

Lemma successful_detail_fetch_attached_sample :
  exists returned, detailed_diff returned = Some sample_files.
Proof.
  destruct (successful_detail_fetch_attached offline_world sample_repository
              "v1.0-production" "v2.0-production" 0 sample_commit
              eq_refl eq_refl eq_refl)
    as (commits & returned & _ & _ & Hfiles & _).
  exists returned. exact Hfiles.
Defined.

Lemma summaries_keep_commit_order_sample :
  completions (fst (generate_release_changelog sample_world sample_repository
                      v2_release (Some "v1.0-production")))
  = [ commit_messages sample_commit; changelog_messages ["Summary."] ].
Proof.
  refine (proj1 (summaries_keep_commit_order sample_world sample_repository
                   v2_release (Some "v1.0-production") [sample_commit] eq_refl _)).
  constructor; [|constructor]. exists "Summary.". reflexivity.
Defined.

Lemma failed_summary_aborts_sample :
  completions (fst (generate_release_changelog offline_world sample_repository
                      v2_release (Some "v1.0-production")))
  = [ commit_messages (with_detailed_diff sample_commit sample_files) ].
Proof.
  exact (proj2 (failed_summary_aborts offline_world sample_repository
                  v2_release (Some "v1.0-production")
                  [] (with_detailed_diff sample_commit sample_files) []
                  {| exc_class := OtherException; exc_text := "Connection error." |}
                  eq_refl (Forall_nil _) eq_refl)).
Defined.

Lemma failed_compare_still_saves_sample :
  writes (fst (changelog <- generate_release_changelog no_compare_world
                              sample_repository v2_release (Some "v1.0-production") ;;
               save_changelog no_compare_world v2_release changelog))
  = [("changelogs/changelog_v2.0-production.md",
      changelog_file v2_release "Summary.")].
Proof.
  refine (proj2 (proj2 (failed_compare_still_saves no_compare_world sample_repository
                          v2_release (Some "v1.0-production")
                          "v2.0-production" "Summary." _ eq_refl eq_refl
                          eq_refl eq_refl))).
  discriminate.
Defined.


Lemma failed_generation_is_reported_sample :
  writes (fst (single_release_round offline_world sample_repository
                 sample_production "1")) = [].
Proof.
  refine (proj1 (proj2 (failed_generation_is_reported offline_world sample_repository
                          sample_production "1" 0 v2_release
                          (release_of_tag "v1.0-production") "v1.0-production"
                          {| exc_class := OtherException;
                             exc_text := "Connection error." |}
                          eq_refl eq_refl eq_refl eq_refl _ eq_refl eq_refl))).
  discriminate.
Defined.

Lemma out_of_range_selection_refused_sample :
  process_release sample_world sample_repository sample_production "0"
  = ([Printed invalid_selection_notice], Ok tt).
Proof.
  refine (out_of_range_selection_refused sample_world sample_repository
            sample_production "0" 0 eq_refl _).
  left. lia.
Defined.

Lemma non_numeric_selection_refused_sample :
  single_release_round sample_world sample_repository sample_production "latest"
  = ([Prompted release_prompt; Printed invalid_input_notice], Continue).
Proof.
  exact (proj1 (non_numeric_selection_refused sample_world sample_repository
                  sample_production "latest" eq_refl eq_refl)).
Defined.



Lemma main_reports_no_releases_on_failure_sample :
  option_map snd (main broken_session sample_date_of 3) = Some (Ok tt).
Proof.
  refine (f_equal (option_map snd)
            (main_reports_no_releases_on_failure broken_session sample_date_of
               [sample_releases] 3 _ _ _ _)).
  - repeat constructor; discriminate.
  - intros [|i] Hi; [reflexivity|]. cbn [List.length] in Hi. lia.
  - cbn [List.length]. lia.
  - discriminate.
Defined.

Lemma main_raises_on_untagged_release_sample :
  option_map snd (main untagged_session sample_date_of 3)
  = Some (Raise (none_has_no_attribute "lower")).
Proof.
  refine (f_equal (option_map snd)
            (main_raises_on_untagged_release untagged_session sample_date_of 3
               [page_request sample_repository 1; page_request sample_repository 2]
               [v2_release; untagged_release] eq_refl _)).
  apply Exists_cons_tl, Exists_cons_hd. reflexivity.
Defined.

Lemma main_without_production_releases_sample :
  main beta_session sample_date_of 3
  = Some ([ repository_prompt; Printed "Fetching releases...";
            page_request sample_repository 1; page_request sample_repository 2;
            Printed "No production releases found." ],
          Ok tt).
Proof.
  refine (main_without_production_releases beta_session sample_date_of 3
            [page_request sample_repository 1; page_request sample_repository 2]
            [release_of_tag "v0.9-beta"; release_of_tag "v0.8-beta"] eq_refl _ _).
  - discriminate.
  - repeat constructor; discriminate.
Defined.

Lemma main_raises_on_malformed_date_sample :
  exists listed e,
    select_mode sample_world sample_date_of 3 sample_repository
      [v2_release; undated_release]
    = Some (mode_menu 2 ++ listed, Raise e)
    /\ exc_class e = ValueError.
Proof.
  assert (Hbefore : Forall (fun r => exists d, sample_date_of (published_at r) = Ok d)
                      [v2_release]).
  { constructor; [|constructor]. exists "2024-01-01". reflexivity. }
  destruct (main_raises_on_malformed_date sample_world sample_date_of 3
              sample_repository [v2_release] undated_release []
              {| exc_class := ValueError;
                 exc_text := "time data 'yesterday' does not match format "
                             ++ "'%Y-%m-%dT%H:%M:%SZ'" |}
              (or_introl eq_refl) Hbefore eq_refl)
    as [listed [Hrun _]].
  exists listed. eexists. split; [exact Hrun|reflexivity].
Defined.

Lemma review_of_failed_fetch_raises_sample :
  snd (Repo.review_commit sample_world sample_repository "abc123")
  = Raise Repo.none_not_iterable.
Proof.
  refine (proj1 (proj2 (review_of_failed_fetch_raises sample_world sample_repository
                          "abc123" _))).
  discriminate.
Defined.

Lemma unopened_changelog_is_reported_sample :
  writes (reported "release"
            (process_release sample_world sample_repository
               [long_release; release_of_tag "v1.0-production"] "1"))
  = [].
Proof.
  refine (proj1 (unopened_changelog_is_reported sample_world sample_repository
                   [long_release; release_of_tag "v1.0-production"] "1" 0
                   long_release (release_of_tag "v1.0-production")
                   "v1.0-production" long_tag "Summary."
                   (file_name_too_long (changelog_path (sanitize_filename long_tag)))
                   eq_refl eq_refl eq_refl eq_refl _ eq_refl eq_refl eq_refl eq_refl)).
  discriminate.
Defined.

Lemma unopened_comparison_is_reported_sample :
  writes (reported "comparison"
            (process_comparison sample_world sample_repository
               [long_release; release_of_tag "v1.0-production"] "1" "2"))
  = [].
Proof.
  refine (proj1 (unopened_comparison_is_reported sample_world sample_repository
                   [long_release; release_of_tag "v1.0-production"] "1" "2" 0 1
                   long_release (release_of_tag "v1.0-production")
                   long_tag "v1.0-production" "Summary."
                   (file_name_too_long
                      (comparison_path (sanitize_filename "v1.0-production")
                         (sanitize_filename long_tag)))
                   eq_refl eq_refl _ eq_refl eq_refl eq_refl eq_refl eq_refl
                   eq_refl eq_refl)).
  lia.
Defined.
